(** * Invoice builder: totals, validation, entry handlers and archive

    A shallow embedding of the invoice core of [InvoiceBuilder]
    (the component of the repository that holds the working
    [InvoiceFormState], derives the totals, validates, and keeps the archive
    of saved copies), and the properties of it that the specification
    states.

    Conventions of the embedding.
    - A JavaScript [number] is an IEEE 754 binary64 value: [spec_float] of the
      Standard Library at [prec = 53], [emax = 1024], with its operations
      ([SFadd], [SFmul], ...), which round to nearest, ties to even, as
      JavaScript does.
    - A string is a [string]; [trim] removes the white space and line
      terminators of the Latin-1 range.
    - React state is passed explicitly: a handler is a function from the
      component state (and what the environment supplies: the text of the
      event, the answer to [window.confirm], the id drawn by [generateId],
      the clock) to the next component state.
    - Built-in parsers ([Number] on strings, [new Date(s).getTime()]) are
      section variables.
    - For the aliasing behaviour of [cloneFormState] the objects live in a
      heap ([gmap] from locations to cells). *)

From Stdlib Require Import ZArith Ascii String Floats.SpecFloat.
From stdpp Require Import base option list strings gmap.

Local Open Scope string_scope.
Local Open Scope list_scope.

(** * The code

    The built-in values and operations of JavaScript that the component uses,
    the data model, and the component. *)

(** ** JavaScript values *)

Module JS.

(** *** Numbers *)

Definition number : Type := spec_float.

Definition prec : Z := 53.
Definition emax : Z := 1024.

Definition NaN : number := S754_nan.
Definition Infinity : number := S754_infinity false.

(** The value of an integer literal ([0], [100], [1000], ...). *)
Definition ofZ (z : Z) : number := binary_normalize prec emax z 0 false.

(** [Number.MAX_VALUE], the largest finite number. *)
Definition MAX_VALUE : number := SFmax_float prec emax.

Definition add (x y : number) : number := SFadd prec emax x y.
Definition sub (x y : number) : number := SFsub prec emax x y.
Definition mul (x y : number) : number := SFmul prec emax x y.
Definition div (x y : number) : number := SFdiv prec emax x y.
Definition ltb (x y : number) : bool := SFltb x y.
Definition leb (x y : number) : bool := SFleb x y.

(** [x >= y] is [y <= x] on numbers (both are false when an operand is
    [NaN]). *)
Definition geb (x y : number) : bool := SFleb y x.

Definition isNaN (x : number) : bool :=
  match x with S754_nan => true | _ => false end.

(** [Math.max] of two numbers: [NaN] when an operand is [NaN]; [+0] is
    larger than [-0]. *)
Definition Math_max (a b : number) : number :=
  match a, b with
  | S754_nan, _ | _, S754_nan => NaN
  | S754_zero sa, S754_zero sb => S754_zero (sa && sb)
  | _, _ => if ltb a b then b else a
  end.

(** Truthiness of a number: [NaN], [+0] and [-0] are falsy. *)
Definition truthy (x : number) : bool :=
  match x with S754_nan | S754_zero _ => false | _ => true end.

(** [x || y] on numbers. *)
Definition or_else (x y : number) : number := if truthy x then x else y.

(** What a field declared [number] holds at run time: a number, or [null],
    which is what [JSON.stringify] writes for [NaN] and the infinities and
    [JSON.parse] reads back. *)
Inductive numeric : Type :=
| Num (x : number)
| Null.

(** [ToNumber], applied by the arithmetic and relational operators. *)
Definition ToNumber (v : numeric) : number :=
  match v with Num x => x | Null => ofZ 0 end.

(** *** Strings *)

Definition isWhiteSpace (c : ascii) : bool :=
  let n := nat_of_ascii c in
  ((9 <=? n)%nat && (n <=? 13)%nat) || (n =? 32)%nat || (n =? 160)%nat.

Fixpoint trimStart (s : string) : string :=
  match s with
  | EmptyString => EmptyString
  | String c s' => if isWhiteSpace c then trimStart s' else s
  end.

Fixpoint trimEnd (s : string) : string :=
  match s with
  | EmptyString => EmptyString
  | String c s' =>
      match trimEnd s' with
      | EmptyString => if isWhiteSpace c then EmptyString else String c EmptyString
      | t => String c t
      end
  end.

Definition trim (s : string) : string := trimEnd (trimStart s).

(** Truthiness of a string: only the empty string is falsy. *)
Definition nonEmpty (s : string) : bool :=
  match s with EmptyString => false | _ => true end.

(** [parts.join(sep)]. *)
Fixpoint join (sep : string) (parts : list string) : string :=
  match parts with
  | [] => ""
  | [p] => p
  | p :: rest => p ++ sep ++ join sep rest
  end.

(** [array.reduce(f, init)], [array.some(p)], [array.find(p)]. *)
Definition reduce {A B : Type} (f : B -> A -> B) (init : B) (l : list A) : B :=
  fold_left f l init.

Definition some {A : Type} (p : A -> bool) (l : list A) : bool := existsb p l.

Fixpoint find {A : Type} (p : A -> bool) (l : list A) : option A :=
  match l with
  | [] => None
  | x :: l' => if p x then Some x else find p l'
  end.

End JS.

Import JS.
Coercion ToNumber : numeric >-> number.

Declare Scope num_scope.
Delimit Scope num_scope with num.
Bind Scope num_scope with number.
Infix "+" := add : num_scope.
Infix "-" := sub : num_scope.
Infix "*" := mul : num_scope.
Infix "/" := div : num_scope.
Infix "<?" := ltb : num_scope.
Infix "<=?" := leb : num_scope.
Infix ">=?" := geb (at level 70) : num_scope.

(** String equality as a boolean ([===] on strings). *)
Definition str_eq (a b : string) : bool := bool_decide (a = b).

(** ** Data model ([types.ts]) *)

Module LineItem.
Record t : Type := mk {
  id : string;
  serviceId : string;
  description : string;
  quantity : numeric;
  unitPrice : numeric;
  discountRate : numeric;
  notes : option string;
}.
End LineItem.

Module ClientDetails.
Record t : Type := mk {
  companyName : string;
  contactName : string;
  email : string;
  phone : string;
  addressLine1 : string;
  addressLine2 : option string;
  city : string;
  state : string;
  postalCode : string;
  country : string;
  gstin : option string;
}.
End ClientDetails.

Module InvoiceMeta.
Record t : Type := mk {
  invoiceNumber : string;
  issueDate : string;
  dueDate : string;
  projectName : string;
  purchaseOrder : option string;
  reference : option string;
}.
End InvoiceMeta.

Inductive Currency : Type := INR | USD | EUR.

Module InvoiceFormState.
Record t : Type := mk {
  clientSelectionId : string;
  client : ClientDetails.t;
  currency : Currency;
  taxRate : numeric;
  lineItems : list LineItem.t;
  meta : InvoiceMeta.t;
  terms : string;
  additionalNote : string;
}.

(** [{ ...prev, taxRate: v }] and [{ ...prev, lineItems: l }]. *)
Definition with_taxRate (prev : t) (v : numeric) : t :=
  mk (clientSelectionId prev) (client prev) (currency prev) v
     (lineItems prev) (meta prev) (terms prev) (additionalNote prev).

Definition with_lineItems (prev : t) (l : list LineItem.t) : t :=
  mk (clientSelectionId prev) (client prev) (currency prev) (taxRate prev)
     l (meta prev) (terms prev) (additionalNote prev).
End InvoiceFormState.

Module StoredInvoice.
Record t : Type := mk {
  id : string;
  invoiceNumber : string;
  savedAt : string;
  formState : InvoiceFormState.t;
}.
End StoredInvoice.

(** ** Totals calculator ([totals]) *)

Record Totals : Type := mkTotals {
  subtotal : number;
  discountTotal : number;
  taxableAmount : number;
  taxAmount : number;
  total : number;
}.

Definition totals (formState : InvoiceFormState.t) : Totals :=
  let subtotal :=
    reduce (fun sum item => sum + LineItem.quantity item * LineItem.unitPrice item)%num
           (ofZ 0) (InvoiceFormState.lineItems formState) in
  let discountTotal :=
    reduce (fun sum item =>
              sum + (LineItem.quantity item * LineItem.unitPrice item
                     * LineItem.discountRate item) / ofZ 100)%num
           (ofZ 0) (InvoiceFormState.lineItems formState) in
  let taxableAmount := Math_max (subtotal - discountTotal)%num (ofZ 0) in
  let taxAmount := ((taxableAmount * InvoiceFormState.taxRate formState) / ofZ 100)%num in
  let total := (taxableAmount + taxAmount)%num in
  mkTotals subtotal discountTotal taxableAmount taxAmount total.

(** ** Snapshot cloner ([cloneFormState]) on values

    [JSON.parse(JSON.stringify(state))]: what the parsed document holds,
    field by field. Strings and absent optional fields come back as they
    were; a finite number comes back as itself, except that [-0] is written
    as [0]; [NaN] and the infinities are written as [null]. The objects the
    parser creates are new ones: see [Mem.cloneFormState] for that side. *)

Module JSON.

Definition number_roundtrip (v : numeric) : numeric :=
  match v with
  | Null => Null
  | Num (S754_zero _) => Num (ofZ 0)
  | Num (S754_finite s m e) => Num (S754_finite s m e)
  | Num (S754_infinity _) => Null
  | Num S754_nan => Null
  end.

Definition item_roundtrip (item : LineItem.t) : LineItem.t :=
  LineItem.mk (LineItem.id item) (LineItem.serviceId item) (LineItem.description item)
    (number_roundtrip (LineItem.quantity item))
    (number_roundtrip (LineItem.unitPrice item))
    (number_roundtrip (LineItem.discountRate item))
    (LineItem.notes item).

Definition roundtrip (state : InvoiceFormState.t) : InvoiceFormState.t :=
  InvoiceFormState.mk
    (InvoiceFormState.clientSelectionId state)
    (InvoiceFormState.client state)
    (InvoiceFormState.currency state)
    (number_roundtrip (InvoiceFormState.taxRate state))
    (map item_roundtrip (InvoiceFormState.lineItems state))
    (InvoiceFormState.meta state)
    (InvoiceFormState.terms state)
    (InvoiceFormState.additionalNote state).

(** The numbers that [JSON.stringify] writes and [JSON.parse] reads back
    unchanged. *)
Definition stable_number (v : numeric) : bool :=
  match v with
  | Null => true
  | Num (S754_zero s) => negb s
  | Num (S754_finite _ _ _) => true
  | Num _ => false
  end.

Definition stable_item (item : LineItem.t) : bool :=
  stable_number (LineItem.quantity item)
  && stable_number (LineItem.unitPrice item)
  && stable_number (LineItem.discountRate item).

Definition stable (state : InvoiceFormState.t) : bool :=
  stable_number (InvoiceFormState.taxRate state)
  && forallb stable_item (InvoiceFormState.lineItems state).

End JSON.

Definition cloneFormState (state : InvoiceFormState.t) : InvoiceFormState.t :=
  JSON.roundtrip state.

(** ** The component state and what the environment supplies *)

Inductive LayoutMode : Type := split | form | preview.

Module Component.
Record t : Type := mk {
  formState : InvoiceFormState.t;
  layoutMode : LayoutMode;
  savedInvoices : list StoredInvoice.t;
  selectedSavedInvoiceId : string;
  hasUserSelectedLayout : bool;
}.

Definition setFormState (c : t) (f : InvoiceFormState.t -> InvoiceFormState.t) : t :=
  mk (f (formState c)) (layoutMode c) (savedInvoices c) (selectedSavedInvoiceId c)
     (hasUserSelectedLayout c).

Definition setSavedInvoices (c : t) (f : list StoredInvoice.t -> list StoredInvoice.t) : t :=
  mk (formState c) (layoutMode c) (f (savedInvoices c)) (selectedSavedInvoiceId c)
     (hasUserSelectedLayout c).

Definition setSelectedSavedInvoiceId (c : t) (id : string) : t :=
  mk (formState c) (layoutMode c) (savedInvoices c) id (hasUserSelectedLayout c).

Definition setLayoutMode (c : t) (mode : LayoutMode) : t :=
  mk (formState c) mode (savedInvoices c) (selectedSavedInvoiceId c)
     (hasUserSelectedLayout c).

Definition setHasUserSelectedLayout (c : t) (b : bool) : t :=
  mk (formState c) (layoutMode c) (savedInvoices c) (selectedSavedInvoiceId c) b.
End Component.

(** What a handler takes from outside the component: whether [window] is
    defined, the answer of [window.confirm] to a message, the token drawn by
    [generateId()], and [new Date().toISOString()]. *)
Module Env.
Record t : Type := mk {
  window_defined : bool;
  confirm : string -> bool;
  generateId : string;
  now : string;
}.
End Env.

(** The line feed of the template literals. *)
Definition LF : string := String (ascii_of_nat 10) EmptyString.

(** The fields of a [LineItem] and the type of each ([LineItem[T]]). *)
Inductive LineItemField : Type :=
| f_id | f_serviceId | f_description | f_quantity | f_unitPrice | f_discountRate | f_notes.

Definition FieldType (field : LineItemField) : Type :=
  match field with
  | f_id | f_serviceId | f_description => string
  | f_quantity | f_unitPrice | f_discountRate => numeric
  | f_notes => option string
  end.

(** [{ ...item, [field]: value }]. *)
Definition set_field (item : LineItem.t) (field : LineItemField) : FieldType field -> LineItem.t :=
  let '(LineItem.mk id serviceId description quantity unitPrice discountRate notes) := item in
  match field with
  | f_id => fun v => LineItem.mk v serviceId description quantity unitPrice discountRate notes
  | f_serviceId => fun v => LineItem.mk id v description quantity unitPrice discountRate notes
  | f_description => fun v => LineItem.mk id serviceId v quantity unitPrice discountRate notes
  | f_quantity => fun v => LineItem.mk id serviceId description v unitPrice discountRate notes
  | f_unitPrice => fun v => LineItem.mk id serviceId description quantity v discountRate notes
  | f_discountRate => fun v => LineItem.mk id serviceId description quantity unitPrice v notes
  | f_notes => fun v => LineItem.mk id serviceId description quantity unitPrice discountRate v
  end.

(** ** The component: validator and handlers *)

Section InvoiceBuilder.

(** [Number(text)], as applied to the text of an input event, and
    [new Date(text).getTime()] ([NaN] for an invalid date). *)
Variable Number : string -> number.
Variable Date_getTime : string -> number.

(** [issues.push(message)] under a condition:
    [if (condition) { issues.push(message) }]. *)
Definition push (issues : list string) (message : string) : list string :=
  issues ++ [message].

Definition push_if (condition : bool) (message : string) (issues : list string)
  : list string :=
  if condition then push issues message else issues.

Definition bad_line_item (item : LineItem.t) : bool :=
  negb (nonEmpty (trim (LineItem.description item)))
  || (LineItem.quantity item <=? ofZ 0)%num
  || (LineItem.unitPrice item <? ofZ 0)%num
  || (LineItem.discountRate item <? ofZ 0)%num.

Definition validateInvoice (state : InvoiceFormState.t) : list string :=
  let meta := InvoiceFormState.meta state in
  let client := InvoiceFormState.client state in
  let issues := [] in
  let issues :=
    push_if (negb (nonEmpty (trim (InvoiceMeta.invoiceNumber meta))))
      "Invoice number is required." issues in
  let issues :=
    push_if (negb (nonEmpty (trim (InvoiceMeta.issueDate meta))))
      "Issue date is required." issues in
  let issues :=
    push_if (negb (nonEmpty (trim (InvoiceMeta.dueDate meta))))
      "Due date is required." issues in
  let issues :=
    if nonEmpty (InvoiceMeta.issueDate meta) && nonEmpty (InvoiceMeta.dueDate meta) then
      let issue := Date_getTime (InvoiceMeta.issueDate meta) in
      let due := Date_getTime (InvoiceMeta.dueDate meta) in
      push_if (negb (isNaN issue) && negb (isNaN due) && (due <? issue)%num)
        "Due date must be on or after issue date." issues
    else issues in
  let issues :=
    push_if (negb (nonEmpty (trim (ClientDetails.companyName client))))
      "Bill to company name is required." issues in
  let issues :=
    push_if (negb (nonEmpty (trim (ClientDetails.addressLine1 client))))
      "Bill to address line 1 is required." issues in
  let issues :=
    push_if (negb (nonEmpty (trim (ClientDetails.city client))))
      "Bill to city is required." issues in
  let issues :=
    push_if (negb (nonEmpty (trim (ClientDetails.state client))))
      "Bill to state is required." issues in
  let issues :=
    push_if (negb (nonEmpty (trim (ClientDetails.postalCode client))))
      "Bill to postal code is required." issues in
  let issues :=
    push_if (negb (nonEmpty (trim (ClientDetails.country client))))
      "Bill to country is required." issues in
  let issues :=
    push_if (Nat.eqb (length (InvoiceFormState.lineItems state)) 0)
      "At least one line item is required." issues in
  let issues :=
    push_if (some bad_line_item (InvoiceFormState.lineItems state))
      "Line items must include a description, quantity > 0, non-negative unit price, and non-negative discount."
      issues in
  issues.

(** *** Entry handlers *)

Definition handleTaxRateChange (value : string) (prev : InvoiceFormState.t)
  : InvoiceFormState.t :=
  let nextValue := Number value in
  InvoiceFormState.with_taxRate prev
    (if isNaN nextValue then InvoiceFormState.taxRate prev
     else Num (Math_max nextValue (ofZ 0))).

Definition handleLineItemFieldChange (id : string) (field : LineItemField)
    (value : FieldType field) (prev : InvoiceFormState.t) : InvoiceFormState.t :=
  InvoiceFormState.with_lineItems prev
    (map (fun item => if str_eq (LineItem.id item) id then set_field item field value else item)
         (InvoiceFormState.lineItems prev)).

(** The [onChange] closures of the three numeric inputs of a line item:
    [handleLineItemFieldChange(item.id, field, Number(event.target.value) || 0)]. *)
Definition onUnitPriceChange (itemId value : string)
  : InvoiceFormState.t -> InvoiceFormState.t :=
  handleLineItemFieldChange itemId f_unitPrice (Num (or_else (Number value) (ofZ 0))).

Definition onQuantityChange (itemId value : string)
  : InvoiceFormState.t -> InvoiceFormState.t :=
  handleLineItemFieldChange itemId f_quantity (Num (or_else (Number value) (ofZ 0))).

Definition onDiscountRateChange (itemId value : string)
  : InvoiceFormState.t -> InvoiceFormState.t :=
  handleLineItemFieldChange itemId f_discountRate (Num (or_else (Number value) (ofZ 0))).

Definition handleRemoveLineItem (id : string) (prev : InvoiceFormState.t)
  : InvoiceFormState.t :=
  InvoiceFormState.with_lineItems prev
    (if (1 <? length (InvoiceFormState.lineItems prev))%nat
     then filter (fun item => LineItem.id item <> id) (InvoiceFormState.lineItems prev)
     else InvoiceFormState.lineItems prev).

(** *** Archive handlers

    [proceed_to_save] and [proceed_to_update] name the part of a handler
    that follows its early returns. *)

Definition handleSaveInvoiceCopy (env : Env.t) (c : Component.t) : Component.t :=
  let formState := Component.formState c in
  let proceed_to_save :=
    let savedAt := Env.now env in
    let invoice :=
      StoredInvoice.mk (Env.generateId env)
        (InvoiceMeta.invoiceNumber (InvoiceFormState.meta formState))
        savedAt
        (cloneFormState formState) in
    let c := Component.setSavedInvoices c (fun prev => invoice :: prev) in
    Component.setSelectedSavedInvoiceId c (StoredInvoice.id invoice) in
  let issues := validateInvoice formState in
  if negb (Nat.eqb (length issues) 0) && Env.window_defined env then
    let proceed :=
      Env.confirm env
        ("Some details are missing:" ++ LF ++ LF ++ join LF issues ++ LF ++ LF
         ++ "Save anyway?") in
    if negb proceed then c else proceed_to_save
  else proceed_to_save.

Definition handleUpdateSavedInvoiceCopy (env : Env.t) (c : Component.t) : Component.t :=
  let formState := Component.formState c in
  let selectedSavedInvoiceId := Component.selectedSavedInvoiceId c in
  let proceed_to_update :=
    let savedAt := Env.now env in
    Component.setSavedInvoices c (fun prev =>
      map (fun inv =>
             if str_eq (StoredInvoice.id inv) selectedSavedInvoiceId
             then StoredInvoice.mk (StoredInvoice.id inv)
                    (InvoiceMeta.invoiceNumber (InvoiceFormState.meta formState))
                    savedAt
                    (cloneFormState formState)
             else inv)
          prev) in
  if negb (nonEmpty selectedSavedInvoiceId) then c
  else
    let issues := validateInvoice formState in
    if negb (Nat.eqb (length issues) 0) && Env.window_defined env then
      let proceed :=
        Env.confirm env
          ("Some details are missing:" ++ LF ++ LF ++ join LF issues ++ LF ++ LF
           ++ "Update anyway?") in
      if negb proceed then c else proceed_to_update
    else proceed_to_update.

Definition handleDuplicateSavedInvoiceCopy (env : Env.t) (c : Component.t) : Component.t :=
  let formState := Component.formState c in
  let savedAt := Env.now env in
  let invoice :=
    StoredInvoice.mk (Env.generateId env)
      (InvoiceMeta.invoiceNumber (InvoiceFormState.meta formState))
      savedAt
      (cloneFormState formState) in
  let c := Component.setSavedInvoices c (fun prev => invoice :: prev) in
  Component.setSelectedSavedInvoiceId c (StoredInvoice.id invoice).

Definition handleLoadSavedInvoice (id : string) (c : Component.t) : Component.t :=
  match find (fun inv => str_eq (StoredInvoice.id inv) id) (Component.savedInvoices c) with
  | None => c
  | Some match_ =>
      let c := Component.setFormState c (fun _ => cloneFormState (StoredInvoice.formState match_)) in
      let c := Component.setSelectedSavedInvoiceId c (StoredInvoice.id match_) in
      let c := Component.setHasUserSelectedLayout c true in
      Component.setLayoutMode c preview
  end.

End InvoiceBuilder.

(** ** [cloneFormState] on objects in memory

    The working state is an object that refers to three other objects (its
    client, its meta, and the array of its line items), and the array refers
    to the line-item objects. [JSON.stringify] reads this graph into a
    document and [JSON.parse] builds the document again out of new objects.
    A heap maps the locations of the objects to their contents; strings and
    numbers are immutable values and are held in place. *)

Module Mem.

Definition loc : Type := positive.

Record StateObject : Type := mkStateObject {
  clientSelectionId : string;
  client : loc;
  currency : Currency;
  taxRate : numeric;
  lineItems : loc;
  meta : loc;
  terms : string;
  additionalNote : string;
}.

Inductive cell : Type :=
| ClientCell (c : ClientDetails.t)
| MetaCell (m : InvoiceMeta.t)
| ItemCell (item : LineItem.t)
| ArrayCell (elements : list loc)
| StateCell (o : StateObject).

Abbreviation heap := (gmap loc cell).

Definition client_at (h : heap) (l : loc) : option ClientDetails.t :=
  match h !! l with Some (ClientCell c) => Some c | _ => None end.

Definition meta_at (h : heap) (l : loc) : option InvoiceMeta.t :=
  match h !! l with Some (MetaCell m) => Some m | _ => None end.

Definition item_at (h : heap) (l : loc) : option LineItem.t :=
  match h !! l with Some (ItemCell item) => Some item | _ => None end.

Definition array_at (h : heap) (l : loc) : option (list loc) :=
  match h !! l with Some (ArrayCell elements) => Some elements | _ => None end.

Definition object_at (h : heap) (l : loc) : option StateObject :=
  match h !! l with Some (StateCell o) => Some o | _ => None end.

Fixpoint items_at (h : heap) (ls : list loc) : option (list LineItem.t) :=
  match ls with
  | [] => Some []
  | l :: rest =>
      item ← item_at h l;
      items ← items_at h rest;
      Some (item :: items)
  end.

(** The [InvoiceFormState] that the object at [r] and the objects it refers
    to hold ([None] when [r] is not such an object). *)
Definition state_at (h : heap) (r : loc) : option InvoiceFormState.t :=
  o ← object_at h r;
  c ← client_at h (client o);
  elements ← array_at h (lineItems o);
  items ← items_at h elements;
  m ← meta_at h (meta o);
  Some (InvoiceFormState.mk (clientSelectionId o) c (currency o) (taxRate o) items m
          (terms o) (additionalNote o)).

(** The objects that make up the state at [r]: the ones a mutation of that
    state can write to. *)
Definition footprint (h : heap) (r : loc) : gset loc :=
  match object_at h r with
  | None => {[ r ]}
  | Some o =>
      {[ r ]} ∪ {[ client o ]} ∪ {[ lineItems o ]} ∪ {[ meta o ]}
      ∪ match array_at h (lineItems o) with
        | Some elements => list_to_set elements
        | None => ∅
        end
  end.

(** A new object: a location that the heap does not use yet. *)
Definition alloc (h : heap) (c : cell) : heap * loc :=
  let l := fresh (dom h) in (<[ l := c ]> h, l).

Fixpoint alloc_items (h : heap) (items : list LineItem.t) : heap * list loc :=
  match items with
  | [] => (h, [])
  | item :: rest =>
      let '(h, l) := alloc h (ItemCell item) in
      let '(h, ls) := alloc_items h rest in
      (h, l :: ls)
  end.

(** [JSON.stringify(state)]: the document, that is the values as they are
    written ([JSON.roundtrip]). *)
Definition JSON_stringify (h : heap) (r : loc) : option InvoiceFormState.t :=
  state ← state_at h r;
  Some (JSON.roundtrip state).

(** [JSON.parse(serialized)]: one new object for the state, one for each
    object and array of the document. *)
Definition JSON_parse (doc : InvoiceFormState.t) (h : heap) : heap * loc :=
  let '(h, c) := alloc h (ClientCell (InvoiceFormState.client doc)) in
  let '(h, ls) := alloc_items h (InvoiceFormState.lineItems doc) in
  let '(h, a) := alloc h (ArrayCell ls) in
  let '(h, m) := alloc h (MetaCell (InvoiceFormState.meta doc)) in
  alloc h (StateCell
             (mkStateObject (InvoiceFormState.clientSelectionId doc) c
                (InvoiceFormState.currency doc) (InvoiceFormState.taxRate doc) a m
                (InvoiceFormState.terms doc) (InvoiceFormState.additionalNote doc))).

Definition cloneFormState (h : heap) (state : loc) : option (heap * loc) :=
  serialized ← JSON_stringify h state;
  Some (JSON_parse serialized h).

(** Mutation: a sequence of writes, each of any content to an object. *)
Definition write_all (writes : list (loc * cell)) (h : heap) : heap :=
  foldl (fun h w => <[ w.1 := w.2 ]> h) h writes.

End Mem.

(** * The specification side

    What the specification says of the totals, of the rules of the
    validator and of the archive operations, for the statements below. *)

(** ** Totals *)

Module TotalsSpec.

(** Per-item amount and per-item discount. *)
Definition amount (item : LineItem.t) : number :=
  (LineItem.quantity item * LineItem.unitPrice item)%num.

Definition discount (item : LineItem.t) : number :=
  ((LineItem.quantity item * LineItem.unitPrice item * LineItem.discountRate item)
   / ofZ 100)%num.

(** The sum of a sequence of numbers, taken in sequence order from [0]. *)
Fixpoint sum_from (acc : number) (terms : list number) : number :=
  match terms with
  | [] => acc
  | term :: rest => sum_from (acc + term)%num rest
  end.

Definition sigma (f : LineItem.t -> number) (items : list LineItem.t) : number :=
  sum_from (ofZ 0) (map f items).

End TotalsSpec.

(** ** The rules of the validator *)

Module ValidatorSpec.

Definition blank (s : string) : bool := negb (nonEmpty (trim s)).

Definition due_before_issue (Date_getTime : string -> number) (state : InvoiceFormState.t)
  : bool :=
  let meta := InvoiceFormState.meta state in
  nonEmpty (InvoiceMeta.issueDate meta) && nonEmpty (InvoiceMeta.dueDate meta)
  && negb (isNaN (Date_getTime (InvoiceMeta.issueDate meta)))
  && negb (isNaN (Date_getTime (InvoiceMeta.dueDate meta)))
  && (Date_getTime (InvoiceMeta.dueDate meta) <? Date_getTime (InvoiceMeta.issueDate meta))%num.

(** A rule: a check of the state alone, and the issue it reports. *)
Record rule : Type := mkRule {
  violated : InvoiceFormState.t -> bool;
  message : string;
}.

Definition meta_blank (field : InvoiceMeta.t -> string) (state : InvoiceFormState.t) : bool :=
  blank (field (InvoiceFormState.meta state)).

Definition client_blank (field : ClientDetails.t -> string) (state : InvoiceFormState.t) : bool :=
  blank (field (InvoiceFormState.client state)).

Definition rules (Date_getTime : string -> number) : list rule :=
  [ mkRule (meta_blank InvoiceMeta.invoiceNumber) "Invoice number is required.";
    mkRule (meta_blank InvoiceMeta.issueDate) "Issue date is required.";
    mkRule (meta_blank InvoiceMeta.dueDate) "Due date is required.";
    mkRule (due_before_issue Date_getTime) "Due date must be on or after issue date.";
    mkRule (client_blank ClientDetails.companyName) "Bill to company name is required.";
    mkRule (client_blank ClientDetails.addressLine1) "Bill to address line 1 is required.";
    mkRule (client_blank ClientDetails.city) "Bill to city is required.";
    mkRule (client_blank ClientDetails.state) "Bill to state is required.";
    mkRule (client_blank ClientDetails.postalCode) "Bill to postal code is required.";
    mkRule (client_blank ClientDetails.country) "Bill to country is required.";
    mkRule (fun state => Nat.eqb (length (InvoiceFormState.lineItems state)) 0)
      "At least one line item is required.";
    mkRule (fun state => some bad_line_item (InvoiceFormState.lineItems state))
      "Line items must include a description, quantity > 0, non-negative unit price, and non-negative discount." ].

(** Every rule is applied to the state; the issues of the violated ones are
    reported in the order of the rules. *)
Fixpoint report (rs : list rule) (state : InvoiceFormState.t) : list string :=
  match rs with
  | [] => []
  | r :: rest =>
      if violated r state then message r :: report rest state else report rest state
  end.

End ValidatorSpec.

(** ** The archive operations *)

Module ArchiveSpec.

(** Whether a handler that validates first goes on: there is no issue, or no
    [window], or the user answers yes to the prompt. *)
Definition goes_on (Date_getTime : string -> number) (env : Env.t)
    (formState : InvoiceFormState.t) (question : string) : bool :=
  let issues := validateInvoice Date_getTime formState in
  Nat.eqb (length issues) 0
  || negb (Env.window_defined env)
  || Env.confirm env
       ("Some details are missing:" ++ LF ++ LF ++ join LF issues ++ LF ++ LF ++ question).

(** A new archive entry: new id, timestamp = now, cloned state, and the
    invoice number copied from the current meta. *)
Definition new_entry (env : Env.t) (formState : InvoiceFormState.t) : StoredInvoice.t :=
  StoredInvoice.mk (Env.generateId env)
    (InvoiceMeta.invoiceNumber (InvoiceFormState.meta formState))
    (Env.now env)
    (cloneFormState formState).

(** An entry after an update: same id; invoice number, timestamp and cloned
    state replaced. *)
Definition updated_entry (env : Env.t) (formState : InvoiceFormState.t)
    (inv : StoredInvoice.t) : StoredInvoice.t :=
  StoredInvoice.mk (StoredInvoice.id inv)
    (InvoiceMeta.invoiceNumber (InvoiceFormState.meta formState))
    (Env.now env)
    (cloneFormState formState).

End ArchiveSpec.

(** * Sample data

    The invoices, archives, environments and heaps of the concrete
    instances below. *)

Definition sample_client : ClientDetails.t :=
  ClientDetails.mk "Acme Retail Pvt Ltd" "R. Iyer" "accounts@acme.example" "+91 44 0000 0000"
    "12 Harbour Road" (Some "") "Chennai" "Tamil Nadu" "600001" "India" (Some "").

Definition sample_meta : InvoiceMeta.t :=
  InvoiceMeta.mk "ADS-2024-0110-k3f9x2ab" "2024-01-10" "2024-01-25" "Retainer Services"
    (Some "") (Some "").

Definition item (id description : string) (quantity unitPrice discountRate : Z) : LineItem.t :=
  LineItem.mk id "" description (Num (ofZ quantity)) (Num (ofZ unitPrice))
    (Num (ofZ discountRate)) (Some "").

Definition sample_state (taxRate : number) (lineItems : list LineItem.t) : InvoiceFormState.t :=
  InvoiceFormState.mk "client-1" sample_client INR (Num taxRate) lineItems sample_meta
    "Payment due within 15 days from the invoice date." "".

(** The invoice of the worked example of the specification. *)
Definition example_items : list LineItem.t :=
  [ item "li-1" "Search campaign management" 2 1000 10;
    item "li-2" "Landing page build" 1 500 0 ].

(** One item whose amount overflows: quantity [Number.MAX_VALUE], unit price
    [2], discount [100] percent. *)
Definition overflow_items : list LineItem.t :=
  [ LineItem.mk "li-1" "" "Bulk licence" (Num MAX_VALUE) (Num (ofZ 2)) (Num (ofZ 100)) (Some "") ].

(** Stand-ins for the built-in parsers at the strings of the concrete
    instances below: [Number("abc")] is [NaN], [Number("-5")] is [-5],
    [Number("7")] is [7], [Number("")] is [0]; the time value of
    ["2024-01-10"] is 1704844800000 and that of ["2024-01-25"] is
    1706140800000; an empty string is an invalid date. *)
Definition Number_table (text : string) : number :=
  if str_eq text "-5" then ofZ (-5)
  else if str_eq text "7" then ofZ 7
  else if str_eq text "" then ofZ 0
  else NaN.

Definition Date_table (text : string) : number :=
  if str_eq text "2024-01-10" then ofZ 1704844800000
  else if str_eq text "2024-01-25" then ofZ 1706140800000
  else NaN.

(** An invoice with an empty due date and an empty company name, complete
    otherwise. *)
Definition state_without_due_date_and_company : InvoiceFormState.t :=
  InvoiceFormState.mk "custom"
    (ClientDetails.mk "" "R. Iyer" "accounts@acme.example" "+91 44 0000 0000"
       "12 Harbour Road" (Some "") "Chennai" "Tamil Nadu" "600001" "India" (Some ""))
    INR (Num (ofZ 18)) example_items
    (InvoiceMeta.mk "ADS-2024-0110-k3f9x2ab" "2024-01-10" "" "Retainer Services"
       (Some "") (Some ""))
    "Payment due within 15 days from the invoice date." "".


(** A working state with a single line item: 3 x 100, no discount. *)
Definition state_one_item : InvoiceFormState.t :=
  sample_state (ofZ 18) [item "li-1" "Audit" 3 100 0].

(** Two line items that carry the same id, and three with distinct ids. *)
Definition items_sharing_an_id : list LineItem.t :=
  [ item "li-1" "Audit" 3 100 0; item "li-1" "Audit follow-up" 1 50 0 ].

Definition three_items : list LineItem.t :=
  [ item "li-1" "Audit" 3 100 0; item "li-2" "Landing page build" 1 500 0;
    item "li-3" "Hosting" 12 20 5 ].

(** An environment in which the user answers no to every prompt, and one in
    which the user answers yes. *)
Definition env_no : Env.t :=
  Env.mk true (fun _ => false) "q7w8e9r0" "2024-01-12T09:30:00.000Z".

Definition env_yes : Env.t :=
  Env.mk true (fun _ => true) "q7w8e9r0" "2024-01-12T09:30:00.000Z".

(** An archive of two entries, and a component whose working state lacks a
    due date and a company name, with the first entry selected. *)
Definition archived_1 : StoredInvoice.t :=
  StoredInvoice.mk "a1b2c3d4" "ADS-2024-0105-zz01yy02" "2024-01-05T10:00:00.000Z"
    state_one_item.

Definition archived_2 : StoredInvoice.t :=
  StoredInvoice.mk "e5f6g7h8" "ADS-2023-1220-aa11bb22" "2023-12-20T16:45:00.000Z"
    (sample_state (ofZ 18) three_items).

Definition component_with_issues : Component.t :=
  Component.mk state_without_due_date_and_company form [archived_1; archived_2]
    "a1b2c3d4" false.

(** A component whose working state has no issue, with nothing selected. *)
Definition component_clean : Component.t :=
  Component.mk (sample_state (ofZ 18) example_items) form [archived_1; archived_2] "" false.

(** A heap that holds [state_one_item] at location 5, and one that holds the
    same state with a tax rate of [Infinity]. *)
Definition heap_of (taxRate : numeric) : gmap Mem.loc Mem.cell :=
  <[ 5%positive := Mem.StateCell
                     (Mem.mkStateObject "client-1" 1%positive INR taxRate 3%positive
                        4%positive "Payment due within 15 days from the invoice date." "") ]>
  (<[ 4%positive := Mem.MetaCell sample_meta ]>
  (<[ 3%positive := Mem.ArrayCell [2%positive] ]>
  (<[ 2%positive := Mem.ItemCell (item "li-1" "Audit" 3 100 0) ]>
  (<[ 1%positive := Mem.ClientCell sample_client ]> ∅)))).

Definition state_with_infinite_rate : InvoiceFormState.t :=
  sample_state Infinity [item "li-1" "Audit" 3 100 0].

Definition state_with_null_rate : InvoiceFormState.t :=
  InvoiceFormState.with_taxRate state_one_item Null.

(** * More of the code

    The rest of the component: the client and service handlers, the other
    archive handlers, the layout, printing, the invoice number, the draft
    autosave; and the ledger summary of [App.tsx]. *)

From Stdlib Require Import DecimalString.

(** ** More JavaScript values *)

(** [Number.isFinite]. *)
Definition isFinite (x : number) : bool :=
  match x with S754_zero _ | S754_finite _ _ _ => true | _ => false end.

(** [v ?? d]: the default when the value is absent. *)
Definition nullish {A : Type} (v : option A) (d : A) : A :=
  match v with Some a => a | None => d end.

(** [a || b] on strings. *)
Definition or_else_string (a b : string) : string := if nonEmpty a then a else b.




(** ** More of the data model ([types.ts]) *)

Inductive ServiceCategory : Type := DigitalMarketing | WebDevelopment | SoftwareDevelopment.

Module Service.
Record t : Type := mk {
  id : string;
  name : string;
  category : ServiceCategory;
  description : string;
  unit : string;
  unitRate : number;
}.
End Service.

Module ClientProfile.
Record t : Type := mk {
  id : string;
  companyName : string;
  contactName : string;
  email : string;
  phone : string;
  addressLine1 : string;
  addressLine2 : option string;
  city : string;
  state : string;
  postalCode : string;
  country : string;
  gstin : option string;
}.
End ClientProfile.

Module DraftInvoicePayload.
Record t : Type := mk {
  savedAt : string;
  formState : InvoiceFormState.t;
}.
End DraftInvoicePayload.




(** ** Module-level helpers *)


(** [createLineItem(service?)], with the token that [generateId()] draws. *)
Definition createLineItem (generatedId : string) (service : option Service.t) : LineItem.t :=
  LineItem.mk generatedId
    (nullish (Service.id <$> service) "")
    (nullish (Service.description <$> service) "")
    (Num (ofZ 1))
    (Num (nullish (Service.unitRate <$> service) (ofZ 0)))
    (Num (ofZ 0))
    (Some "").

(** The date parts that the invoice-number template reads off [new Date()]:
    [getFullYear()], [getMonth()] (from 0) and [getDate()]. *)
Module Today.
Record t : Type := mk {
  getFullYear : Z;
  getMonth : nat;
  getDate : nat;
}.
End Today.


(** ** More handlers *)

Section MoreHandlers.

(** The client directory of [../data] and the lookup table built from its
    service catalog ([serviceLookup[serviceId]], [None] for [undefined]). *)
Variable CLIENT_DIRECTORY : list ClientProfile.t.
Variable serviceLookup : string -> option Service.t.
Variable Date_getTime : string -> number.


Definition handleServiceChange (id serviceId : string) (prev : InvoiceFormState.t)
  : InvoiceFormState.t :=
  let service := serviceLookup serviceId in
  InvoiceFormState.with_lineItems prev
    (map (fun item =>
            if str_eq (LineItem.id item) id
            then LineItem.mk (LineItem.id item) serviceId
                   (match service with
                    | Some s => Service.description s
                    | None => LineItem.description item
                    end)
                   (LineItem.quantity item)
                   (match service with
                    | Some s => Num (Service.unitRate s)
                    | None => LineItem.unitPrice item
                    end)
                   (LineItem.discountRate item)
                   (LineItem.notes item)
            else item)
         (InvoiceFormState.lineItems prev)).

Definition handleAddLineItem (env : Env.t) (prev : InvoiceFormState.t) : InvoiceFormState.t :=
  InvoiceFormState.with_lineItems prev
    (InvoiceFormState.lineItems prev ++ [createLineItem (Env.generateId env) None]).


Definition handleDeleteSavedInvoice (env : Env.t) (id : string) (c : Component.t)
  : Component.t :=
  let proceed_to_delete :=
    let c' := Component.setSavedInvoices c
                (fun prev => filter (fun inv => StoredInvoice.id inv <> id) prev) in
    if str_eq (Component.selectedSavedInvoiceId c) id
    then Component.setSelectedSavedInvoiceId c' ""
    else c' in
  if Env.window_defined env then
    let ok := Env.confirm env "Delete this saved invoice copy?" in
    if negb ok then c else proceed_to_delete
  else proceed_to_delete.

(** [handleExportSavedInvoice]: the entry that is serialized and the name of
    the file that is downloaded; [None] when the handler returns at once. *)
Definition handleExportSavedInvoice (env : Env.t) (id : string) (c : Component.t)
  : option (StoredInvoice.t * string) :=
  match find (fun inv => str_eq (StoredInvoice.id inv) id) (Component.savedInvoices c) with
  | None => None
  | Some match_ =>
      if negb (Env.window_defined env) then None
      else
        Some (match_,
              (or_else_string (StoredInvoice.invoiceNumber match_) "invoice"
               ++ "-" ++ StoredInvoice.id match_ ++ ".json")%string)
  end.

(** *** Layout *)

Definition handleLayoutModeChange (mode : LayoutMode) (c : Component.t) : Component.t :=
  let c := Component.setHasUserSelectedLayout c true in
  Component.setLayoutMode c mode.

(** The listener of the media query [(min-width: 1280px)]. *)
Definition applyLayout (matches : bool) (c : Component.t) : Component.t :=
  if Component.hasUserSelectedLayout c then c
  else Component.setLayoutMode c (if matches then split else form).

(** The class names of the two panels. *)
Definition formPanelClassName (c : Component.t) : string :=
  "form-panel" ++ match Component.layoutMode c with preview => " is-hidden" | _ => "" end.

Definition previewPanelClassName (c : Component.t) : string :=
  "preview-panel" ++ match Component.layoutMode c with form => " is-hidden" | _ => "" end.

(** *** Printing

    [handlePrintInvoice] switches to the preview layout, registers [restore]
    for the [afterprint] event and schedules [window.print()]. What [restore]
    has captured is returned beside the next state ([None]: nothing was
    registered and nothing is printed). *)

Record PrintJob : Type := mkPrintJob {
  previousLayoutMode : LayoutMode;
  previousUserSelection : bool;
}.

Definition handlePrintInvoice (env : Env.t) (c : Component.t)
  : Component.t * option PrintJob :=
  let proceed_to_print :=
    let job := mkPrintJob (Component.layoutMode c) (Component.hasUserSelectedLayout c) in
    let c := Component.setHasUserSelectedLayout c true in
    (Component.setLayoutMode c preview, Some job) in
  if Env.window_defined env then
    let issues := validateInvoice Date_getTime (Component.formState c) in
    if negb (Nat.eqb (length issues) 0) then
      let proceed :=
        Env.confirm env
          ("Some details are missing:" ++ LF ++ LF ++ join LF issues ++ LF ++ LF
           ++ "Continue to print?") in
      if negb proceed then (c, None) else proceed_to_print
    else proceed_to_print
  else (c, None).

Definition restore (job : PrintJob) (c : Component.t) : Component.t :=
  let c := Component.setHasUserSelectedLayout c (previousUserSelection job) in
  Component.setLayoutMode c (previousLayoutMode job).

End MoreHandlers.

(** ** What is persisted

    [JSON.stringify] of the archive and of a draft, as the documents that
    [JSON.parse] reads back. *)

Definition stored_roundtrip (inv : StoredInvoice.t) : StoredInvoice.t :=
  StoredInvoice.mk (StoredInvoice.id inv) (StoredInvoice.invoiceNumber inv)
    (StoredInvoice.savedAt inv) (JSON.roundtrip (StoredInvoice.formState inv)).

Definition archive_roundtrip (savedInvoices : list StoredInvoice.t) : list StoredInvoice.t :=
  map stored_roundtrip savedInvoices.

Definition draft_roundtrip (payload : DraftInvoicePayload.t) : DraftInvoicePayload.t :=
  DraftInvoicePayload.mk (DraftInvoicePayload.savedAt payload)
    (JSON.roundtrip (DraftInvoicePayload.formState payload)).

(** ** Draft autosave

    The component with its draft: the [draftPayload] state, the entry
    [invoice-draft.v1] of [localStorage], and the timeout that the autosave
    effect has pending, with the [formState] its callback has captured. *)

Module Builder.
Record t : Type := mk {
  component : Component.t;
  draftPayload : option DraftInvoicePayload.t;
  draftStorage : option DraftInvoicePayload.t;
  pendingTimeout : option InvoiceFormState.t;
}.
End Builder.

(** A render with a new [formState]: the cleanup of the previous effect clears
    its timeout, and the effect sets a new one (800 ms), unless there is no
    [window]. *)
Definition setFormState_autosave (env : Env.t) (b : Builder.t)
    (f : InvoiceFormState.t -> InvoiceFormState.t) : Builder.t :=
  let c := Component.setFormState (Builder.component b) f in
  Builder.mk c (Builder.draftPayload b) (Builder.draftStorage b)
    (if Env.window_defined env then Some (Component.formState c) else None).

(** The timeout fires: the callback clones the captured state, stamps the
    time, writes the payload to storage and sets [draftPayload]. *)
Definition autosave_fires (env : Env.t) (b : Builder.t) : Builder.t :=
  match Builder.pendingTimeout b with
  | None => b
  | Some formState =>
      let payload := DraftInvoicePayload.mk (Env.now env) (cloneFormState formState) in
      Builder.mk (Builder.component b) (Some payload) (Some (draft_roundtrip payload)) None
  end.

Definition handleRestoreDraft (env : Env.t) (b : Builder.t) : Builder.t :=
  match Builder.draftPayload b with
  | None => b
  | Some draftPayload =>
      let b := setFormState_autosave env b
                 (fun _ => cloneFormState (DraftInvoicePayload.formState draftPayload)) in
      let c := Component.setHasUserSelectedLayout (Builder.component b) true in
      let c := Component.setLayoutMode c form in
      Builder.mk c (Builder.draftPayload b) (Builder.draftStorage b) (Builder.pendingTimeout b)
  end.

Definition handleClearDraft (env : Env.t) (b : Builder.t) : Builder.t :=
  Builder.mk (Builder.component b) None
    (if Env.window_defined env then None else Builder.draftStorage b)
    (Builder.pendingTimeout b).

(** A burst of edits, each a render with a new [formState]. *)
Definition edits (env : Env.t) (fs : list (InvoiceFormState.t -> InvoiceFormState.t))
    (b : Builder.t) : Builder.t :=
  foldl (setFormState_autosave env) b fs.

(** ** The ledger summary ([summarize] of [App.tsx]) *)

Inductive InvoiceStatus : Type := Draft | Pending | Paid | Overdue.

Module InvoiceRecord.
Record t : Type := mk {
  id : string;
  invoiceNumber : string;
  clientId : string;
  engagement : string;
  currency : Currency;
  amount : number;
  status : InvoiceStatus;
  issueDate : string;
  dueDate : string;
  lastUpdated : string;
}.
End InvoiceRecord.

Module Summary.
Record t : Type := mk {
  overall : number;
  outstanding : number;
  draft : number;
  pending : number;
  paid : number;
  overdue : number;
}.




End Summary.




(** * Definitions for the further properties *)

(** The shape of a rounded result: a zero, a finite number or an infinity of
    the given sign. *)
Definition signed (s : bool) (x : number) : Prop :=
  x = S754_zero s \/ (exists m e, x = S754_finite s m e) \/ x = S754_infinity s.

(** Zero (of either sign), or positive, possibly [Infinity]. *)
Definition nonnegative (x : number) : bool :=
  match x with
  | S754_zero _ | S754_finite false _ _ | S754_infinity false => true
  | _ => false
  end.

(** [Infinity] or [-Infinity]. *)
Definition isInfinity (x : number) : bool :=
  match x with S754_infinity _ => true | _ => false end.

(** A numeric field that holds a finite number that is not negative. *)
Definition finite_nonnegative (v : numeric) : bool :=
  match v with
  | Num (S754_zero _) | Num (S754_finite false _ _) => true
  | _ => false
  end.

(** Every entry of the archive holds a state that JSON writes and reads back
    unchanged. *)
Definition archive_stable (savedInvoices : list StoredInvoice.t) : Prop :=
  Forall (fun inv => JSON.stable (StoredInvoice.formState inv) = true) savedInvoices.

Definition line_item_issue : string :=
  "Line items must include a description, quantity > 0, non-negative unit price, and non-negative discount.".



(** The prompt of [handlePrintInvoice]. *)
Definition print_prompt (issues : list string) : string :=
  "Some details are missing:" ++ LF ++ LF ++ join LF issues ++ LF ++ LF
  ++ "Continue to print?".

(** ** More sample data *)

Definition sample_service : Service.t :=
  Service.mk "svc-seo" "Search engine optimisation" DigitalMarketing
    "Monthly SEO retainer: audits, content briefs and reporting" "month" (ofZ 45000).

Definition serviceLookup_sample (serviceId : string) : option Service.t :=
  if str_eq serviceId "svc-seo" then Some sample_service else None.



Definition builder_sample : Builder.t := Builder.mk component_clean None None None.

(** Two edits of a burst: a tax rate of 12, then a new line item. *)
Definition burst_sample : list (InvoiceFormState.t -> InvoiceFormState.t) :=
  [ fun prev => InvoiceFormState.with_taxRate prev (Num (ofZ 12));
    handleAddLineItem env_yes ].
(** * Properties *)

(** ** Totals *)

Lemma reduce_sum_from (f : LineItem.t -> number) (items : list LineItem.t) (acc : number) :
  reduce (fun sum item => sum + f item)%num acc items
  = TotalsSpec.sum_from acc (map f items).
Proof.
  unfold reduce. revert acc.
  induction items as [|item items IH]; intro acc; simpl; [reflexivity | apply IH].
Qed.

Lemma Math_max_0_isNaN (x : number) : isNaN (Math_max x (ofZ 0)) = isNaN x.
Proof.
  destruct x as [s| s | |s m e]; try destruct s; reflexivity.
Qed.

Lemma Math_max_0_not_negative (x : number) :
  (Math_max x (ofZ 0) <? ofZ 0)%num = false.
Proof.
  destruct x as [s| s | |s m e]; try destruct s; reflexivity.
Qed.

Lemma Math_max_0_clamps (x : number) :
  (x <=? ofZ 0)%num = true -> Math_max x (ofZ 0) = ofZ 0.
Proof.
  destruct x as [s| s | |s m e]; intro H; try discriminate H;
    destruct s; try discriminate H; reflexivity.
Qed.

Lemma Math_max_0_nonneg (x : number) :
  isNaN x = false -> (Math_max x (ofZ 0) >=? ofZ 0)%num = true.
Proof.
  destruct x as [s| s | |s m e]; intro H; try discriminate H;
    destruct s; reflexivity.
Qed.

(** C1, as the code has it. For every working state, [totals] returns
    subtotal = the sum over the items of quantity * unitPrice, discountTotal =
    the sum over the items of quantity * unitPrice * discountRate / 100,
    taxableAmount = Math.max(subtotal - discountTotal, 0), taxAmount =
    taxableAmount * taxRate / 100 and total = taxableAmount + taxAmount.
    The taxable amount is never negative: it is [0] when
    subtotal - discountTotal is negative or zero (the discounts exceed the
    subtotal), it is [NaN] exactly when subtotal - discountTotal is [NaN],
    and it is [>= 0] otherwise. On the
    worked example (2 x 1000 at 10 percent, 1 x 500 at 0 percent, tax rate 18)
    the result is 2500, 200, 2300, 414, 2714, whatever the other fields of
    the state and of the items hold. *)
Theorem totals_formulas :
  (forall formState : InvoiceFormState.t,
      let items := InvoiceFormState.lineItems formState in
      let t := totals formState in
      subtotal t = TotalsSpec.sigma TotalsSpec.amount items
      /\ discountTotal t = TotalsSpec.sigma TotalsSpec.discount items
      /\ taxableAmount t = Math_max (subtotal t - discountTotal t)%num (ofZ 0)
      /\ taxAmount t = ((taxableAmount t * InvoiceFormState.taxRate formState) / ofZ 100)%num
      /\ total t = (taxableAmount t + taxAmount t)%num
      /\ (taxableAmount t <? ofZ 0)%num = false
      /\ ((subtotal t - discountTotal t <=? ofZ 0)%num = true -> taxableAmount t = ofZ 0)
      /\ isNaN (taxableAmount t) = isNaN (subtotal t - discountTotal t)%num
      /\ (taxableAmount t >=? ofZ 0)%num = negb (isNaN (subtotal t - discountTotal t)%num))
  /\ (forall selection client currency meta terms note
             id1 service1 description1 notes1 id2 service2 description2 notes2,
         totals (InvoiceFormState.mk selection client currency (Num (ofZ 18))
                   [ LineItem.mk id1 service1 description1
                       (Num (ofZ 2)) (Num (ofZ 1000)) (Num (ofZ 10)) notes1;
                     LineItem.mk id2 service2 description2
                       (Num (ofZ 1)) (Num (ofZ 500)) (Num (ofZ 0)) notes2 ]
                   meta terms note)
         = mkTotals (ofZ 2500) (ofZ 200) (ofZ 2300) (ofZ 414) (ofZ 2714)).
Proof.
  split.
  - intros formState items t.
    repeat split.
    + apply (reduce_sum_from TotalsSpec.amount).
    + apply (reduce_sum_from TotalsSpec.discount).
    + apply Math_max_0_not_negative.
    + apply Math_max_0_clamps.
    + apply Math_max_0_isNaN.
    + unfold t, totals; cbn [taxableAmount subtotal discountTotal].
      set (d := (_ - _)%num).
      destruct (isNaN d) eqn:E.
      * destruct d; try discriminate E. reflexivity.
      * now apply Math_max_0_nonneg.
  - intros. vm_compute. reflexivity.
Qed.

(** C1, as stated, fails on overflow: with quantity [Number.MAX_VALUE], unit
    price 2 and a discount of 100 percent both sums are [Infinity], their
    difference is [NaN], and so is the taxable amount, which is then not
    [>= 0]. *)
Lemma totals_taxable_not_nonneg_on_overflow :
  let t := totals (sample_state (ofZ 18) overflow_items) in
  subtotal t = Infinity
  /\ discountTotal t = Infinity
  /\ taxableAmount t = NaN
  /\ (taxableAmount t >=? ofZ 0)%num = false.
Proof. vm_compute. repeat split; reflexivity. Qed.

(** The discounts exceed the subtotal: one item of 1 x 100 at a discount of
    150 percent. *)
Lemma totals_formulas_witness :
  let t := totals (sample_state (ofZ 18) [item "li-1" "Audit" 1 100 150]) in
  subtotal t = ofZ 100 /\ discountTotal t = ofZ 150 /\ taxableAmount t = ofZ 0.
Proof.
  split; [reflexivity |]. split; [reflexivity |].
  apply (proj1 totals_formulas (sample_state (ofZ 18) [item "li-1" "Audit" 1 100 150])).
  vm_compute. reflexivity.
Defined.

(** ** Validator *)

Lemma push_if_app (condition : bool) (message : string) (issues : list string) :
  push_if condition message issues = issues ++ (if condition then [message] else []).
Proof.
  unfold push_if, push. destruct condition; [reflexivity | now rewrite app_nil_r].
Qed.

Lemma report_cons (r : ValidatorSpec.rule) (rest : list ValidatorSpec.rule)
    (state : InvoiceFormState.t) :
  ValidatorSpec.report (r :: rest) state
  = (if ValidatorSpec.violated r state then [ValidatorSpec.message r] else [])
      ++ ValidatorSpec.report rest state.
Proof. simpl. destruct (ValidatorSpec.violated r state); reflexivity. Qed.

Lemma due_rule_app (Date_getTime : string -> number) (state : InvoiceFormState.t)
    (message : string) (issues : list string) :
  let meta := InvoiceFormState.meta state in
  (if nonEmpty (InvoiceMeta.issueDate meta) && nonEmpty (InvoiceMeta.dueDate meta)
   then push_if (negb (isNaN (Date_getTime (InvoiceMeta.issueDate meta)))
                 && negb (isNaN (Date_getTime (InvoiceMeta.dueDate meta)))
                 && (Date_getTime (InvoiceMeta.dueDate meta)
                     <? Date_getTime (InvoiceMeta.issueDate meta))%num)
          message issues
   else issues)
  = issues ++ (if ValidatorSpec.due_before_issue Date_getTime state then [message] else []).
Proof.
  intro meta. unfold ValidatorSpec.due_before_issue. fold meta.
  destruct (nonEmpty (InvoiceMeta.issueDate meta) && nonEmpty (InvoiceMeta.dueDate meta)).
  - rewrite push_if_app. rewrite <- !andb_assoc. reflexivity.
  - simpl. now rewrite app_nil_r.
Qed.

(** The validator reports, in rule order, the issue of every rule that the
    state violates. *)
Lemma validateInvoice_report (Date_getTime : string -> number) (state : InvoiceFormState.t) :
  validateInvoice Date_getTime state
  = ValidatorSpec.report (ValidatorSpec.rules Date_getTime) state.
Proof.
  unfold validateInvoice, ValidatorSpec.rules.
  cbv zeta.
  rewrite due_rule_app.
  rewrite !push_if_app.
  rewrite !report_cons.
  cbn [ValidatorSpec.report ValidatorSpec.violated ValidatorSpec.message].
  unfold ValidatorSpec.meta_blank, ValidatorSpec.client_blank, ValidatorSpec.blank.
  rewrite app_nil_l, app_nil_r, <- !app_assoc.
  reflexivity.
Qed.

(** C2. The validator applies every rule to the state, each on its own, and
    returns the issues of the violated rules in the order of the rules (no
    issue: the empty list). Being a function of the state (and of the date
    parser), it returns the same list on every run. When exactly the due-date
    rule and the company-name rule are violated (the third and the fifth of
    the twelve checks), the result is the due-date issue followed by the
    company-name issue, and nothing else. *)
Theorem validateInvoice_in_rule_order
    (Date_getTime : string -> number) (state : InvoiceFormState.t) :
  validateInvoice Date_getTime state
  = ValidatorSpec.report (ValidatorSpec.rules Date_getTime) state
  /\ (map (fun r => ValidatorSpec.violated r state) (ValidatorSpec.rules Date_getTime)
      = [false; false; true; false; true; false; false; false; false; false; false; false]
      -> validateInvoice Date_getTime state
         = ["Due date is required."; "Bill to company name is required."]).
Proof.
  split; [apply validateInvoice_report |].
  intro H. rewrite validateInvoice_report.
  unfold ValidatorSpec.rules in *.
  cbn [map ValidatorSpec.violated] in H.
  injection H as H1 H2 H3 H4 H5 H6 H7 H8 H9 H10 H11 H12.
  cbn [ValidatorSpec.report ValidatorSpec.violated ValidatorSpec.message].
  rewrite H1, H2, H3, H4, H5, H6, H7, H8, H9, H10, H11, H12.
  reflexivity.
Qed.

Lemma validateInvoice_in_rule_order_witness :
  validateInvoice Date_table state_without_due_date_and_company
  = ["Due date is required."; "Bill to company name is required."].
Proof.
  apply (proj2 (validateInvoice_in_rule_order Date_table state_without_due_date_and_company)).
  vm_compute. reflexivity.
Defined.

(** ** Entry handlers *)

Lemma with_taxRate_same (prev : InvoiceFormState.t) :
  InvoiceFormState.with_taxRate prev (InvoiceFormState.taxRate prev) = prev.
Proof. destruct prev; reflexivity. Qed.

Lemma with_lineItems_same (prev : InvoiceFormState.t) :
  InvoiceFormState.with_lineItems prev (InvoiceFormState.lineItems prev) = prev.
Proof. destruct prev; reflexivity. Qed.

Lemma or_else_0_not_NaN (x : number) : isNaN (or_else x (ofZ 0)) = false.
Proof. destruct x; reflexivity. Qed.

Lemma or_else_0_of_NaN (x : number) : isNaN x = true -> or_else x (ofZ 0) = ofZ 0.
Proof. destruct x; intro H; try discriminate H; reflexivity. Qed.

Lemma or_else_0_of_negative (x : number) : (x <? ofZ 0)%num = true -> or_else x (ofZ 0) = x.
Proof.
  destruct x as [s| s | |s m e]; intro H; try reflexivity; discriminate H.
Qed.

(** Position by position, [handleLineItemFieldChange] rewrites the field in
    the items that carry the id and leaves the other items as they are. *)
Lemma handleLineItemFieldChange_lookup (id : string) (field : LineItemField)
    (value : FieldType field) (prev : InvoiceFormState.t) (i : nat) (item : LineItem.t) :
  InvoiceFormState.lineItems prev !! i = Some item ->
  InvoiceFormState.lineItems (handleLineItemFieldChange id field value prev) !! i
  = Some (if str_eq (LineItem.id item) id then set_field item field value else item).
Proof.
  intro H. unfold handleLineItemFieldChange. cbn [InvoiceFormState.with_lineItems InvoiceFormState.lineItems].
  rewrite list_lookup_fmap, H. reflexivity.
Qed.

Lemma handleTaxRateChange_taxRate (Number : string -> number) (value : string)
    (prev : InvoiceFormState.t) :
  InvoiceFormState.taxRate (handleTaxRateChange Number value prev)
  = if isNaN (Number value) then InvoiceFormState.taxRate prev
    else Num (Math_max (Number value) (ofZ 0)).
Proof. reflexivity. Qed.

(** C3, as the code has it. When the entered text does not parse as a number
    ([Number] gives [NaN]): the tax-rate handler returns the state it was
    given, so the previous tax rate is retained; the handlers of the quantity,
    the unit price and the discount rate of a line item do not retain the
    previous value but store [0] in that field of the items with the id, the
    other items being unchanged. For every text, the tax rate holds [NaN]
    after the entry only if the text did not parse and the tax rate held [NaN]
    before, and the value stored in a line-item field is never [NaN]. *)
Theorem entry_parse_failure (Number : string -> number) :
  (forall value prev,
      isNaN (InvoiceFormState.taxRate (handleTaxRateChange Number value prev))
      = isNaN (Number value) && isNaN (InvoiceFormState.taxRate prev))
  /\ (forall value, isNaN (or_else (Number value) (ofZ 0)) = false)
  /\ (forall value, isNaN (Number value) = true ->
        (forall prev, handleTaxRateChange Number value prev = prev)
        /\ (forall itemId prev i item,
               InvoiceFormState.lineItems prev !! i = Some item ->
               InvoiceFormState.lineItems (onQuantityChange Number itemId value prev) !! i
               = Some (if str_eq (LineItem.id item) itemId
                       then set_field item f_quantity (Num (ofZ 0)) else item)
               /\ InvoiceFormState.lineItems (onUnitPriceChange Number itemId value prev) !! i
                  = Some (if str_eq (LineItem.id item) itemId
                          then set_field item f_unitPrice (Num (ofZ 0)) else item)
               /\ InvoiceFormState.lineItems (onDiscountRateChange Number itemId value prev) !! i
                  = Some (if str_eq (LineItem.id item) itemId
                          then set_field item f_discountRate (Num (ofZ 0)) else item))).
Proof.
  split; [|split].
  - intros value prev. rewrite handleTaxRateChange_taxRate.
    destruct (isNaN (Number value)) eqn:E; [reflexivity |].
    cbn [ToNumber]. rewrite Math_max_0_isNaN. exact E.
  - intro value. apply or_else_0_not_NaN.
  - intros value HNaN. split.
    + intro prev. unfold handleTaxRateChange. rewrite HNaN. apply with_taxRate_same.
    + intros itemId prev i item Hi.
      unfold onQuantityChange, onUnitPriceChange, onDiscountRateChange.
      rewrite (or_else_0_of_NaN _ HNaN).
      repeat split; apply handleLineItemFieldChange_lookup; exact Hi.
Qed.

Lemma entry_parse_failure_witness :
  handleTaxRateChange Number_table "abc" state_one_item = state_one_item
  /\ InvoiceFormState.lineItems (onQuantityChange Number_table "li-1" "abc" state_one_item) !! 0%nat
     = Some (item "li-1" "Audit" 0 100 0).
Proof.
  destruct (entry_parse_failure Number_table) as (_ & _ & H).
  destruct (H "abc" eq_refl) as [Htax Hitems].
  split; [apply Htax |].
  apply (Hitems "li-1" state_one_item 0%nat (item "li-1" "Audit" 3 100 0) eq_refl).
Defined.

(** C3, as stated, fails for the quantity field: with a quantity of 3, the
    entry of a text that does not parse leaves 0 in the field, not 3. *)
Lemma quantity_not_retained_on_parse_failure :
  isNaN (Number_table "abc") = true
  /\ map LineItem.quantity (InvoiceFormState.lineItems state_one_item) = [Num (ofZ 3)]
  /\ map LineItem.quantity
       (InvoiceFormState.lineItems (onQuantityChange Number_table "li-1" "abc" state_one_item))
     = [Num (ofZ 0)]
  /\ onQuantityChange Number_table "li-1" "abc" state_one_item <> state_one_item.
Proof.
  repeat split; try reflexivity.
  intro H. apply (f_equal (fun s => map LineItem.quantity (InvoiceFormState.lineItems s))) in H.
  vm_compute in H. discriminate H.
Qed.




(** ** Removal of a line item *)

Lemma filter_other_ids_nonempty (id : string) (items : list LineItem.t) :
  (2 <= length items)%nat ->
  NoDup (map LineItem.id items) ->
  filter (fun item => LineItem.id item <> id) items <> [].
Proof.
  destruct items as [|a [|b rest]]; cbn [length]; try lia.
  intros _ Hnd Hnil.
  cbn [map] in Hnd. apply NoDup_cons in Hnd as [Hab _].
  assert (Hne : LineItem.id a <> LineItem.id b) by (intro E; apply Hab; rewrite E; left).
  destruct (decide (LineItem.id a = id)) as [Ea | Ea].
  - assert (Hb : LineItem.id b <> id) by congruence.
    eapply (filter_nil_not_elem_of _ _ b Hnil Hb). right; left.
  - eapply (filter_nil_not_elem_of _ _ a Hnil Ea). left.
Qed.

(** Filtering leaves nothing exactly when no element passes the test. *)
Lemma filter_other_ids_nil (id : string) (items : list LineItem.t) :
  filter (fun item => LineItem.id item <> id) items = []
  <-> forall item, item ∈ items -> LineItem.id item = id.
Proof.
  split.
  - intros Hnil item Hin. destruct (decide (LineItem.id item = id)) as [E | E]; [exact E |].
    exfalso. exact (filter_nil_not_elem_of _ _ item Hnil E Hin).
  - intro Hall. destruct (filter _ items) as [|x rest] eqn:E; [reflexivity |].
    assert (Hx : x ∈ filter (fun item => LineItem.id item <> id) items)
      by (rewrite E; left).
    apply list_elem_of_filter in Hx as [Hne Hin]. destruct (Hne (Hall x Hin)).
Qed.

(** C10. With exactly one line item, removal is a no-op for every id: the
    state comes back as it was, so the last item is never removed. With two or
    more items, removal keeps exactly the items whose id differs from the
    given one, in their order, and changes nothing else. With pairwise
    distinct ids a non-empty list therefore stays non-empty; in general a
    non-empty list becomes empty through removal exactly when it has two or
    more items and all of them carry the given id. *)
Theorem handleRemoveLineItem_spec (id : string) (prev : InvoiceFormState.t) :
  let items := InvoiceFormState.lineItems prev in
  let items' := InvoiceFormState.lineItems (handleRemoveLineItem id prev) in
  (length items = 1%nat -> handleRemoveLineItem id prev = prev /\ items' <> [])
  /\ ((2 <= length items)%nat ->
      handleRemoveLineItem id prev
      = InvoiceFormState.with_lineItems prev
          (filter (fun item => LineItem.id item <> id) items)
      /\ (forall item, item ∈ items' <-> item ∈ items /\ LineItem.id item <> id)
      /\ sublist items' items)
  /\ (items <> [] -> NoDup (map LineItem.id items) -> items' <> [])
  /\ (items <> [] ->
      (items' = []
       <-> (2 <= length items)%nat
           /\ forall item, item ∈ items -> LineItem.id item = id)).
Proof.
  intros items items'. subst items'. unfold handleRemoveLineItem. fold items.
  cbn [InvoiceFormState.with_lineItems InvoiceFormState.lineItems].
  split; [|split; [|split]].
  - intro Hlen. rewrite Hlen. cbn [Nat.ltb Nat.leb].
    split; [apply with_lineItems_same |].
    intro Hnil. rewrite Hnil in Hlen. discriminate Hlen.
  - intro Hlen.
    destruct (Nat.ltb_spec 1 (length items)) as [_ | Hle]; [|lia].
    split; [reflexivity |]. split.
    + intro item. rewrite list_elem_of_filter. tauto.
    + apply sublist_filter.
  - intros Hne Hnd.
    destruct (Nat.ltb_spec 1 (length items)) as [Hlt | Hle]; [|exact Hne].
    apply filter_other_ids_nonempty; [lia | exact Hnd].
  - intro Hne.
    destruct (Nat.ltb_spec 1 (length items)) as [Hlt | Hle].
    + rewrite filter_other_ids_nil. split.
      * intro Hall. split; [lia | exact Hall].
      * intros [_ Hall]. exact Hall.
    + split.
      * intro Hnil. destruct (Hne Hnil).
      * intros [Hlen _]. lia.
Qed.

Lemma handleRemoveLineItem_spec_witness :
  (handleRemoveLineItem "li-1" state_one_item = state_one_item
   /\ InvoiceFormState.lineItems (handleRemoveLineItem "li-1" state_one_item) <> [])
  /\ InvoiceFormState.lineItems (handleRemoveLineItem "li-2" (sample_state (ofZ 18) three_items))
     = [ item "li-1" "Audit" 3 100 0; item "li-3" "Hosting" 12 20 5 ]
  /\ InvoiceFormState.lineItems (handleRemoveLineItem "li-2" (sample_state (ofZ 18) three_items))
     <> [].
Proof.
  split; [|split].
  - apply (proj1 (handleRemoveLineItem_spec "li-1" state_one_item)). reflexivity.
  - destruct (proj1 (proj2 (handleRemoveLineItem_spec "li-2" (sample_state (ofZ 18) three_items))))
      as [H _]; [cbn; lia |].
    rewrite H. reflexivity.
  - apply (proj1 (proj2 (proj2 (handleRemoveLineItem_spec "li-2"
                                  (sample_state (ofZ 18) three_items))))).
    + discriminate.
    + apply (bool_decide_unpack _). vm_compute. exact I.
Defined.

(** C10, as stated, fails when ids are shared: from a list of two items that
    both carry the id, removal leaves no item, so the list does become empty
    through removal. *)
Example handleRemoveLineItem_shared_id :
  let prev := sample_state (ofZ 18) items_sharing_an_id in
  length (InvoiceFormState.lineItems prev) = 2%nat
  /\ InvoiceFormState.lineItems prev <> []
  /\ InvoiceFormState.lineItems (handleRemoveLineItem "li-1" prev) = [].
Proof. cbn. split; [reflexivity |]. split; [discriminate | reflexivity]. Qed.

(** ** Archive *)

Lemma component_eta (c : Component.t) :
  Component.mk (Component.formState c) (Component.layoutMode c) (Component.savedInvoices c)
    (Component.selectedSavedInvoiceId c) (Component.hasUserSelectedLayout c) = c.
Proof. destruct c; reflexivity. Qed.

(** The early return of save and update is taken exactly when
    [ArchiveSpec.goes_on] is false. *)
Lemma guard_goes_on (Date_getTime : string -> number) (env : Env.t)
    (formState : InvoiceFormState.t) (question : string) (A : Type) (stay go : A) :
  (let issues := validateInvoice Date_getTime formState in
   if negb (Nat.eqb (length issues) 0) && Env.window_defined env then
     if negb (Env.confirm env
                ("Some details are missing:" ++ LF ++ LF ++ join LF issues ++ LF ++ LF
                 ++ question))
     then stay else go
   else go)
  = if ArchiveSpec.goes_on Date_getTime env formState question then go else stay.
Proof.
  unfold ArchiveSpec.goes_on. cbv zeta.
  destruct (Nat.eqb (length (validateInvoice Date_getTime formState)) 0);
    destruct (Env.window_defined env); cbn [negb andb orb]; try reflexivity.
  destruct (Env.confirm env _); reflexivity.
Qed.

Lemma handleSaveInvoiceCopy_unfold (Date_getTime : string -> number) (env : Env.t)
    (c : Component.t) :
  handleSaveInvoiceCopy Date_getTime env c
  = if ArchiveSpec.goes_on Date_getTime env (Component.formState c) "Save anyway?"
    then Component.mk (Component.formState c) (Component.layoutMode c)
           (ArchiveSpec.new_entry env (Component.formState c) :: Component.savedInvoices c)
           (Env.generateId env) (Component.hasUserSelectedLayout c)
    else c.
Proof.
  unfold handleSaveInvoiceCopy. cbv zeta.
  rewrite (guard_goes_on Date_getTime env (Component.formState c) "Save anyway?").
  reflexivity.
Qed.

Lemma handleDuplicateSavedInvoiceCopy_unfold (env : Env.t) (c : Component.t) :
  handleDuplicateSavedInvoiceCopy env c
  = Component.mk (Component.formState c) (Component.layoutMode c)
      (ArchiveSpec.new_entry env (Component.formState c) :: Component.savedInvoices c)
      (Env.generateId env) (Component.hasUserSelectedLayout c).
Proof. reflexivity. Qed.

(** C5, as the code has it. Unless the save is cancelled (the working state
    has validation issues and the user answers no to the prompt), save creates
    a new entry with the id drawn by [generateId], the current timestamp, the
    clone of the working state and the invoice number of the current meta;
    the entry is at index 0, every prior entry follows in its order (the one
    that was at index i is at index i + 1), the new entry is the selected one,
    and the working state is as before. When the save is cancelled, nothing
    changes. *)
Theorem handleSaveInvoiceCopy_spec (Date_getTime : string -> number) (env : Env.t)
    (c : Component.t) :
  let c' := handleSaveInvoiceCopy Date_getTime env c in
  let formState := Component.formState c in
  (ArchiveSpec.goes_on Date_getTime env formState "Save anyway?" = true ->
   exists invoice,
     StoredInvoice.id invoice = Env.generateId env
     /\ StoredInvoice.savedAt invoice = Env.now env
     /\ StoredInvoice.formState invoice = cloneFormState formState
     /\ StoredInvoice.invoiceNumber invoice
        = InvoiceMeta.invoiceNumber (InvoiceFormState.meta formState)
     /\ Component.savedInvoices c' = invoice :: Component.savedInvoices c
     /\ Component.savedInvoices c' !! 0%nat = Some invoice
     /\ (forall i, Component.savedInvoices c' !! S i = Component.savedInvoices c !! i)
     /\ Component.selectedSavedInvoiceId c' = StoredInvoice.id invoice
     /\ Component.formState c' = formState
     /\ Component.layoutMode c' = Component.layoutMode c)
  /\ (ArchiveSpec.goes_on Date_getTime env formState "Save anyway?" = false -> c' = c).
Proof.
  intros c' formState. subst c'. rewrite handleSaveInvoiceCopy_unfold. fold formState.
  split; intro H; rewrite H; [|reflexivity].
  exists (ArchiveSpec.new_entry env formState). repeat split.
Qed.

Lemma handleSaveInvoiceCopy_spec_witness :
  (exists invoice,
      StoredInvoice.id invoice = "q7w8e9r0"
      /\ Component.savedInvoices (handleSaveInvoiceCopy Date_table env_yes component_with_issues)
         = [invoice; archived_1; archived_2]
      /\ Component.selectedSavedInvoiceId
           (handleSaveInvoiceCopy Date_table env_yes component_with_issues) = "q7w8e9r0")
  /\ handleSaveInvoiceCopy Date_table env_no component_with_issues = component_with_issues.
Proof.
  split.
  - destruct (proj1 (handleSaveInvoiceCopy_spec Date_table env_yes component_with_issues))
      as (invoice & Hid & _ & _ & _ & Hsaved & _ & _ & Hsel & _); [reflexivity |].
    exists invoice. split; [exact Hid |]. split; [exact Hsaved |].
    rewrite Hsel. exact Hid.
  - apply (proj2 (handleSaveInvoiceCopy_spec Date_table env_no component_with_issues)).
    reflexivity.
Defined.

(** C5, as stated, fails when the save is cancelled: the working state lacks
    a due date and a company name, the user answers no, and the archive and
    the selection are as before: no entry was created. *)
Lemma save_cancelled_creates_nothing :
  let c' := handleSaveInvoiceCopy Date_table env_no component_with_issues in
  validateInvoice Date_table (Component.formState component_with_issues)
  = ["Due date is required."; "Bill to company name is required."]
  /\ Component.savedInvoices c' = [archived_1; archived_2]
  /\ Component.savedInvoices c' !! 0%nat = Some archived_1
  /\ Component.selectedSavedInvoiceId c' = "a1b2c3d4".
Proof. vm_compute. repeat split; reflexivity. Qed.

(** C7, as the code has it. Duplicate always creates a new entry (new id,
    current timestamp, clone of the working state, invoice number of the
    current meta), puts it at the front and selects it, whatever the
    selection was; it validates nothing and asks nothing. It gives the same
    result as save whenever save is not cancelled at the validation prompt;
    when save is cancelled, save changes nothing and duplicate still adds its
    entry. *)
Theorem handleDuplicateSavedInvoiceCopy_spec (Date_getTime : string -> number)
    (env : Env.t) (c : Component.t) :
  let formState := Component.formState c in
  let c' := handleDuplicateSavedInvoiceCopy env c in
  (Component.savedInvoices c'
   = ArchiveSpec.new_entry env formState :: Component.savedInvoices c
   /\ Component.selectedSavedInvoiceId c' = Env.generateId env
   /\ Component.formState c' = formState
   /\ Component.layoutMode c' = Component.layoutMode c
   /\ Component.hasUserSelectedLayout c' = Component.hasUserSelectedLayout c)
  /\ (ArchiveSpec.goes_on Date_getTime env formState "Save anyway?" = true ->
      handleSaveInvoiceCopy Date_getTime env c = c')
  /\ (ArchiveSpec.goes_on Date_getTime env formState "Save anyway?" = false ->
      handleSaveInvoiceCopy Date_getTime env c = c /\ c' <> c).
Proof.
  intros formState c'. subst c'.
  rewrite handleSaveInvoiceCopy_unfold, handleDuplicateSavedInvoiceCopy_unfold.
  fold formState.
  split; [repeat split |].
  split; intro H; rewrite H; [reflexivity |].
  split; [reflexivity |].
  intro E. apply (f_equal (fun x => length (Component.savedInvoices x))) in E.
  cbn [Component.savedInvoices length] in E. lia.
Qed.

Lemma handleDuplicateSavedInvoiceCopy_spec_witness :
  handleSaveInvoiceCopy Date_table env_yes component_with_issues
  = handleDuplicateSavedInvoiceCopy env_yes component_with_issues
  /\ handleSaveInvoiceCopy Date_table env_no component_with_issues = component_with_issues
  /\ handleDuplicateSavedInvoiceCopy env_no component_with_issues <> component_with_issues.
Proof.
  split.
  - apply (proj1 (proj2 (handleDuplicateSavedInvoiceCopy_spec
                           Date_table env_yes component_with_issues))).
    reflexivity.
  - apply (proj2 (proj2 (handleDuplicateSavedInvoiceCopy_spec
                           Date_table env_no component_with_issues))).
    reflexivity.
Defined.

(** C7, as stated, fails when the working state has validation issues and
    the user answers no: save leaves the archive of two entries as it is,
    duplicate makes it three. *)
Lemma duplicate_differs_from_cancelled_save :
  length (Component.savedInvoices
            (handleSaveInvoiceCopy Date_table env_no component_with_issues)) = 2%nat
  /\ length (Component.savedInvoices
               (handleDuplicateSavedInvoiceCopy env_no component_with_issues)) = 3%nat
  /\ handleSaveInvoiceCopy Date_table env_no component_with_issues
     <> handleDuplicateSavedInvoiceCopy env_no component_with_issues.
Proof.
  split; [reflexivity |]. split; [reflexivity |].
  intro E. apply (f_equal (fun x => length (Component.savedInvoices x))) in E.
  vm_compute in E. discriminate E.
Qed.

Lemma handleUpdateSavedInvoiceCopy_unfold (Date_getTime : string -> number) (env : Env.t)
    (c : Component.t) :
  handleUpdateSavedInvoiceCopy Date_getTime env c
  = if nonEmpty (Component.selectedSavedInvoiceId c)
       && ArchiveSpec.goes_on Date_getTime env (Component.formState c) "Update anyway?"
    then Component.mk (Component.formState c) (Component.layoutMode c)
           (map (fun inv =>
                   if str_eq (StoredInvoice.id inv) (Component.selectedSavedInvoiceId c)
                   then ArchiveSpec.updated_entry env (Component.formState c) inv
                   else inv)
                (Component.savedInvoices c))
           (Component.selectedSavedInvoiceId c) (Component.hasUserSelectedLayout c)
    else c.
Proof.
  unfold handleUpdateSavedInvoiceCopy. cbv zeta.
  rewrite (guard_goes_on Date_getTime env (Component.formState c) "Update anyway?").
  destruct (nonEmpty (Component.selectedSavedInvoiceId c)); cbn [negb andb]; reflexivity.
Qed.

Lemma map_update_no_match (sel : string) (f : StoredInvoice.t -> StoredInvoice.t)
    (l : list StoredInvoice.t) :
  (forall inv, inv ∈ l -> StoredInvoice.id inv <> sel) ->
  map (fun inv => if str_eq (StoredInvoice.id inv) sel then f inv else inv) l = l.
Proof.
  induction l as [|inv l IH]; intro H; [reflexivity |].
  cbn [map]. rewrite IH by (intros x Hx; apply H; now right).
  unfold str_eq. rewrite bool_decide_eq_false_2 by (apply H; left). reflexivity.
Qed.

(** C6, as the code has it. The update targets the selected id. It never
    changes the working state, the selection, the length of the archive, the
    position or the id of an entry, or an entry whose id differs from the
    selected one; with no entry of that id it changes nothing at all. When it
    is carried out (an id is selected, and the update is not cancelled at the
    validation prompt), every entry with the selected id keeps its id and its
    position and gets the invoice number of the current meta, the current
    timestamp and a clone of the working state. When it is not carried out,
    nothing changes, also for a matching entry. *)
Theorem handleUpdateSavedInvoiceCopy_spec (Date_getTime : string -> number) (env : Env.t)
    (c : Component.t) :
  let sel := Component.selectedSavedInvoiceId c in
  let formState := Component.formState c in
  let c' := handleUpdateSavedInvoiceCopy Date_getTime env c in
  let carried_out :=
    nonEmpty sel && ArchiveSpec.goes_on Date_getTime env formState "Update anyway?" in
  (Component.formState c' = formState
   /\ Component.selectedSavedInvoiceId c' = sel
   /\ Component.layoutMode c' = Component.layoutMode c
   /\ length (Component.savedInvoices c') = length (Component.savedInvoices c)
   /\ forall i inv,
       Component.savedInvoices c !! i = Some inv ->
       exists inv',
         Component.savedInvoices c' !! i = Some inv'
         /\ StoredInvoice.id inv' = StoredInvoice.id inv
         /\ (StoredInvoice.id inv <> sel -> inv' = inv))
  /\ ((forall inv, inv ∈ Component.savedInvoices c -> StoredInvoice.id inv <> sel) -> c' = c)
  /\ (carried_out = true ->
      forall i inv,
        Component.savedInvoices c !! i = Some inv ->
        Component.savedInvoices c' !! i
        = Some (if str_eq (StoredInvoice.id inv) sel
                then StoredInvoice.mk (StoredInvoice.id inv)
                       (InvoiceMeta.invoiceNumber (InvoiceFormState.meta formState))
                       (Env.now env)
                       (cloneFormState formState)
                else inv))
  /\ (carried_out = false -> c' = c).
Proof.
  intros sel formState c' carried_out. subst c'.
  rewrite handleUpdateSavedInvoiceCopy_unfold. fold sel formState carried_out.
  destruct carried_out.
  - cbn [Component.formState Component.selectedSavedInvoiceId Component.layoutMode
         Component.savedInvoices].
    split; [|split; [|split]].
    + repeat split; [apply length_map |].
      intros i inv Hi. eexists. split; [rewrite list_lookup_fmap, Hi; reflexivity |].
      unfold str_eq. case_bool_decide; [split; [reflexivity | contradiction] |].
      split; reflexivity.
    + intro Hno. rewrite map_update_no_match by exact Hno. apply component_eta.
    + intros _ i inv Hi. rewrite list_lookup_fmap, Hi. reflexivity.
    + discriminate.
  - split; [|split; [|split]].
    + repeat split. intros i inv Hi. exists inv. repeat split. exact Hi.
    + reflexivity.
    + discriminate.
    + reflexivity.
Qed.

Lemma handleUpdateSavedInvoiceCopy_spec_witness :
  Component.savedInvoices
    (handleUpdateSavedInvoiceCopy Date_table env_yes component_with_issues)
  = [ StoredInvoice.mk "a1b2c3d4" "ADS-2024-0110-k3f9x2ab" "2024-01-12T09:30:00.000Z"
        (cloneFormState state_without_due_date_and_company);
      archived_2 ]
  /\ handleUpdateSavedInvoiceCopy Date_table env_no component_with_issues
     = component_with_issues
  /\ handleUpdateSavedInvoiceCopy Date_table env_yes component_clean = component_clean.
Proof.
  split; [|split].
  - pose proof (proj1 (proj2 (proj2 (handleUpdateSavedInvoiceCopy_spec
                                       Date_table env_yes component_with_issues)))
                  eq_refl) as H.
    apply list_eq. intros [|[|i]].
    + rewrite (H 0%nat archived_1 eq_refl). reflexivity.
    + rewrite (H 1%nat archived_2 eq_refl). reflexivity.
    + destruct (proj1 (handleUpdateSavedInvoiceCopy_spec
                         Date_table env_yes component_with_issues))
        as (_ & _ & _ & Hlen & _).
      rewrite !lookup_ge_None_2; [reflexivity | cbn; lia | rewrite Hlen; cbn; lia].
  - apply (proj2 (proj2 (proj2 (handleUpdateSavedInvoiceCopy_spec
                                  Date_table env_no component_with_issues)))).
    reflexivity.
  - apply (proj1 (proj2 (handleUpdateSavedInvoiceCopy_spec
                           Date_table env_yes component_clean))).
    intros inv Hin.
    apply list_elem_of_In in Hin. cbn in Hin.
    destruct Hin as [<- | [<- | []]]; discriminate.
Defined.

(** C6, as stated, fails when the update is cancelled: the first entry has
    the selected id, the working state has validation issues, the user answers
    no, and the entry keeps its invoice number, its timestamp and its state. *)
Lemma update_cancelled_replaces_nothing :
  let c' := handleUpdateSavedInvoiceCopy Date_table env_no component_with_issues in
  StoredInvoice.id archived_1 = Component.selectedSavedInvoiceId component_with_issues
  /\ Component.savedInvoices c' !! 0%nat = Some archived_1
  /\ StoredInvoice.invoiceNumber archived_1
     <> InvoiceMeta.invoiceNumber
          (InvoiceFormState.meta (Component.formState component_with_issues))
  /\ StoredInvoice.savedAt archived_1 <> Env.now env_no
  /\ StoredInvoice.formState archived_1
     <> cloneFormState (Component.formState component_with_issues).
Proof.
  repeat split; try reflexivity; intro E.
  - discriminate E.
  - discriminate E.
  - apply (f_equal InvoiceFormState.clientSelectionId) in E. discriminate E.
Qed.

Lemma find_None {A : Type} (p : A -> bool) (l : list A) :
  (forall x, x ∈ l -> p x = false) -> find p l = None.
Proof.
  induction l as [|a l IH]; intro H; [reflexivity |].
  cbn [find]. rewrite (H a) by left. apply IH. intros x Hx. apply H. now right.
Qed.

(** [find] returns the first element that satisfies the test. *)
Lemma find_Some_first {A : Type} (p : A -> bool) (l : list A) (x : A) :
  x ∈ l -> p x = true ->
  exists i y, find p l = Some y /\ l !! i = Some y /\ p y = true
              /\ forall j z, (j < i)%nat -> l !! j = Some z -> p z = false.
Proof.
  induction l as [|a l IH]; intros Hin Hp; [inversion Hin |].
  cbn [find]. destruct (p a) eqn:Ea.
  - exists 0%nat, a. repeat split; [exact Ea |]. intros j z Hj. lia.
  - assert (Hx : x ∈ l).
    { apply elem_of_cons in Hin as [-> | Hin]; [congruence | exact Hin]. }
    destruct (IH Hx Hp) as (i & y & Hf & Hi & Hy & Hfirst).
    exists (S i), y. repeat split; try assumption.
    intros [|j] z Hj Hz; [cbn in Hz; congruence |].
    apply (Hfirst j z); [lia | exact Hz].
Qed.

Lemma same_id_same_entry (l : list StoredInvoice.t) (x y : StoredInvoice.t) :
  NoDup (map StoredInvoice.id l) ->
  x ∈ l -> y ∈ l -> StoredInvoice.id x = StoredInvoice.id y -> x = y.
Proof.
  induction l as [|a l IH]; intros Hnd Hx Hy E; [inversion Hx |].
  cbn [map] in Hnd. apply NoDup_cons in Hnd as [Ha Hnd].
  assert (Hmem : forall z, z ∈ l -> StoredInvoice.id z ∈ map StoredInvoice.id l).
  { intros z Hz. apply list_elem_of_fmap. exists z. split; [reflexivity | exact Hz]. }
  apply elem_of_cons in Hx as [-> | Hx]; apply elem_of_cons in Hy as [-> | Hy].
  - reflexivity.
  - exfalso. apply Ha. rewrite E. now apply Hmem.
  - exfalso. apply Ha. rewrite <- E. now apply Hmem.
  - now apply IH.
Qed.

(** C9. Load of an id that no entry of the archive carries changes nothing:
    the working state, the selection and the archive (and the layout) are as
    before. Load of an id that is present takes the first entry with that id
    (the only one, when the ids of the archive are pairwise distinct), puts a
    clone of its state in the working state and selects it; the archive is as
    before and the layout is the preview one. *)
Theorem handleLoadSavedInvoice_spec (id : string) (c : Component.t) :
  let c' := handleLoadSavedInvoice id c in
  ((forall inv, inv ∈ Component.savedInvoices c -> StoredInvoice.id inv <> id) -> c' = c)
  /\ (forall inv,
         inv ∈ Component.savedInvoices c -> StoredInvoice.id inv = id ->
         exists i match_,
           Component.savedInvoices c !! i = Some match_
           /\ StoredInvoice.id match_ = id
           /\ (forall j other, (j < i)%nat -> Component.savedInvoices c !! j = Some other ->
                               StoredInvoice.id other <> id)
           /\ (NoDup (map StoredInvoice.id (Component.savedInvoices c)) -> match_ = inv)
           /\ Component.formState c' = cloneFormState (StoredInvoice.formState match_)
           /\ Component.selectedSavedInvoiceId c' = StoredInvoice.id match_
           /\ Component.savedInvoices c' = Component.savedInvoices c
           /\ Component.layoutMode c' = preview
           /\ Component.hasUserSelectedLayout c' = true).
Proof.
  intro c'. subst c'. unfold handleLoadSavedInvoice. split.
  - intro Hno. rewrite find_None; [reflexivity |].
    intros x Hx. unfold str_eq. apply bool_decide_eq_false_2. now apply Hno.
  - intros inv Hin Hid.
    destruct (find_Some_first (fun x => str_eq (StoredInvoice.id x) id)
                (Component.savedInvoices c) inv Hin) as (i & y & Hf & Hi & Hy & Hfirst).
    { unfold str_eq. now apply bool_decide_eq_true_2. }
    rewrite Hf. exists i, y.
    apply bool_decide_eq_true_1 in Hy.
    split; [exact Hi |]. split; [exact Hy |]. split.
    { intros j other Hj Hother. specialize (Hfirst j other Hj Hother).
      now apply bool_decide_eq_false_1 in Hfirst. }
    split.
    { intro Hnd. apply (same_id_same_entry (Component.savedInvoices c)); try assumption.
      - apply list_elem_of_lookup. now exists i.
      - congruence. }
    repeat split.
Qed.

Lemma handleLoadSavedInvoice_spec_witness :
  handleLoadSavedInvoice "zzzzzzzz" component_with_issues = component_with_issues
  /\ exists i match_,
      Component.savedInvoices component_clean !! i = Some match_
      /\ StoredInvoice.id match_ = "e5f6g7h8"
      /\ match_ = archived_2
      /\ Component.formState (handleLoadSavedInvoice "e5f6g7h8" component_clean)
         = cloneFormState (StoredInvoice.formState match_)
      /\ Component.selectedSavedInvoiceId (handleLoadSavedInvoice "e5f6g7h8" component_clean)
         = StoredInvoice.id match_.
Proof.
  split.
  - apply (proj1 (handleLoadSavedInvoice_spec "zzzzzzzz" component_with_issues)).
    intros inv Hin. apply list_elem_of_In in Hin. cbn in Hin.
    destruct Hin as [<- | [<- | []]]; discriminate.
  - destruct (proj2 (handleLoadSavedInvoice_spec "e5f6g7h8" component_clean) archived_2)
      as (i & m & Hi & Hid & _ & Huniq & Hform & Hsel & _).
    + apply list_elem_of_In. cbn. right; left; reflexivity.
    + reflexivity.
    + exists i, m. repeat split; try assumption.
      apply Huniq. apply (bool_decide_unpack _). vm_compute. exact I.
Defined.

(** ** [cloneFormState] in memory *)

Module MemFacts.
Import Mem.

Lemma alloc_spec (h h' : heap) (c : cell) (l : loc) :
  alloc h c = (h', l) -> h !! l = None /\ h' = <[ l := c ]> h.
Proof.
  unfold alloc. intro E. injection E as <- <-.
  split; [|reflexivity]. apply not_elem_of_dom, is_fresh.
Qed.

Lemma alloc_subseteq (h h' : heap) (c : cell) (l : loc) :
  alloc h c = (h', l) -> h ⊆ h'.
Proof.
  intro E. apply alloc_spec in E as [Hnone ->]. now apply insert_subseteq.
Qed.

Lemma items_at_agree (h h' : heap) (ls : list loc) (items : list LineItem.t) :
  items_at h ls = Some items ->
  (forall l, l ∈ ls -> h' !! l = h !! l) ->
  items_at h' ls = Some items.
Proof.
  revert items. induction ls as [|l ls IH]; intros items H Hagree; [exact H |].
  cbn [items_at] in *. unfold item_at in *.
  rewrite (Hagree l) by left.
  destruct (h !! l) as [[]|]; try discriminate H. cbn in *.
  destruct (items_at h ls) as [rest|] eqn:E; [|discriminate H].
  rewrite (IH rest eq_refl); [exact H |].
  intros l' Hl'. apply Hagree. now right.
Qed.

Lemma state_at_agree (h h' : heap) (r : loc) (s : InvoiceFormState.t) :
  state_at h r = Some s ->
  (forall l, l ∈ footprint h r -> h' !! l = h !! l) ->
  state_at h' r = Some s /\ footprint h' r = footprint h r.
Proof.
  unfold state_at, footprint, object_at, client_at, array_at, meta_at.
  intros H Hagree.
  assert (Hr : h' !! r = h !! r).
  { apply Hagree. destruct (h !! r) as [[]|]; set_solver. }
  rewrite Hr.
  destruct (h !! r) as [[| | | |o]|] eqn:Er; try discriminate H.
  cbn in H, Hagree |- *.
  rewrite !(Hagree (client o)) by set_solver.
  rewrite !(Hagree (lineItems o)) by set_solver.
  rewrite !(Hagree (meta o)) by set_solver.
  destruct (h !! client o) as [[c| | | |]|]; try discriminate H. cbn in H |- *.
  destruct (h !! lineItems o) as [[| | |elements|]|]; try discriminate H. cbn in H |- *.
  destruct (items_at h elements) as [items|] eqn:Ei; [|discriminate H]. cbn in H |- *.
  rewrite (items_at_agree h h' elements items Ei).
  - cbn. split; [exact H | reflexivity].
  - intros l Hl. apply Hagree. set_solver.
Qed.

Lemma items_at_dom (h : heap) (ls : list loc) (items : list LineItem.t) :
  items_at h ls = Some items -> forall l, l ∈ ls -> l ∈ dom h.
Proof.
  revert items. induction ls as [|l0 ls IH]; intros items H l Hl; [inversion Hl |].
  cbn [items_at] in H. unfold item_at in H.
  destruct (h !! l0) as [cell0|] eqn:E0; [|discriminate H].
  destruct cell0; try discriminate H. cbn in H.
  destruct (items_at h ls) as [rest|] eqn:E; [|discriminate H].
  apply elem_of_cons in Hl as [-> | Hl].
  - apply elem_of_dom. eauto.
  - now apply (IH rest).
Qed.

Lemma footprint_dom (h : heap) (r : loc) (s : InvoiceFormState.t) :
  state_at h r = Some s -> footprint h r ⊆ dom h.
Proof.
  unfold state_at, footprint, object_at, client_at, array_at, meta_at.
  intro H.
  destruct (h !! r) as [[| | | |o]|] eqn:Er; try discriminate H. cbn in H |- *.
  destruct (h !! client o) as [[c| | | |]|] eqn:Ec; try discriminate H. cbn in H.
  destruct (h !! lineItems o) as [[| | |elements|]|] eqn:Ea; try discriminate H. cbn in H.
  destruct (items_at h elements) as [items|] eqn:Ei; [|discriminate H]. cbn in H.
  destruct (h !! meta o) as [[|m| | |]|] eqn:Em; try discriminate H.
  pose proof (items_at_dom h elements items Ei) as Hd.
  intros l Hl.
  rewrite !elem_of_union, !elem_of_singleton, elem_of_list_to_set in Hl.
  destruct Hl as [[[[-> | ->] | ->] | ->] | Hl]; try (apply elem_of_dom; eauto; fail).
  now apply Hd.
Qed.

Lemma alloc_items_spec (items : list LineItem.t) (h h' : heap) (ls : list loc) :
  alloc_items h items = (h', ls) ->
  h ⊆ h'
  /\ (forall l, l ∈ ls -> h !! l = None)
  /\ items_at h' ls = Some items.
Proof.
  revert h h' ls. induction items as [|item items IH]; intros h h' ls H.
  - cbn in H. injection H as <- <-. repeat split; [reflexivity |]. intros l Hl. inversion Hl.
  - cbn [alloc_items] in H.
    destruct (alloc h (ItemCell item)) as [h1 l1] eqn:E1.
    destruct (alloc_items h1 items) as [h2 ls2] eqn:E2.
    injection H as <- <-.
    destruct (IH _ _ _ E2) as (Hsub & Hfresh & Hitems).
    pose proof (alloc_subseteq _ _ _ _ E1) as Hsub1.
    apply alloc_spec in E1 as [Hnone ->].
    split; [etrans; eassumption |]. split.
    + intros l Hl. apply elem_of_cons in Hl as [-> | Hl]; [exact Hnone |].
      specialize (Hfresh l Hl).
      eapply lookup_weaken_None; eassumption.
    + cbn [items_at]. unfold item_at.
      rewrite (lookup_weaken _ _ l1 (ItemCell item) (lookup_insert_eq _ _ _) Hsub).
      cbn. rewrite Hitems. reflexivity.
Qed.

Lemma JSON_parse_spec (doc : InvoiceFormState.t) (h h' : heap) (r' : loc) :
  JSON_parse doc h = (h', r') ->
  h ⊆ h'
  /\ state_at h' r' = Some doc
  /\ (forall l, l ∈ footprint h' r' -> h !! l = None).
Proof.
  unfold JSON_parse. intro H.
  destruct (alloc h (ClientCell (InvoiceFormState.client doc))) as [h1 c] eqn:E1.
  destruct (alloc_items h1 (InvoiceFormState.lineItems doc)) as [h2 ls] eqn:E2.
  destruct (alloc h2 (ArrayCell ls)) as [h3 a] eqn:E3.
  destruct (alloc h3 (MetaCell (InvoiceFormState.meta doc))) as [h4 m] eqn:E4.
  pose proof (alloc_subseteq _ _ _ _ E1) as S1.
  destruct (alloc_items_spec _ _ _ _ E2) as (S2 & Fls & Hitems).
  pose proof (alloc_subseteq _ _ _ _ E3) as S3.
  pose proof (alloc_subseteq _ _ _ _ E4) as S4.
  pose proof (alloc_subseteq _ _ _ _ H) as S5.
  apply alloc_spec in E1 as [N1 E1].
  apply alloc_spec in E3 as [N3 E3].
  apply alloc_spec in E4 as [N4 E4].
  apply alloc_spec in H as [N5 E5].
  assert (Hc : h' !! c = Some (ClientCell (InvoiceFormState.client doc))).
  { apply (lookup_weaken h1); [subst h1; apply lookup_insert_eq |].
    etrans; [exact S2 |]. etrans; [exact S3 |]. etrans; [exact S4 | exact S5]. }
  assert (Ha : h' !! a = Some (ArrayCell ls)).
  { apply (lookup_weaken h3); [subst h3; apply lookup_insert_eq |].
    etrans; [exact S4 | exact S5]. }
  assert (Hm : h' !! m = Some (MetaCell (InvoiceFormState.meta doc))).
  { apply (lookup_weaken h4); [subst h4; apply lookup_insert_eq | exact S5]. }
  assert (Hr : h' !! r' = Some (StateCell
             (mkStateObject (InvoiceFormState.clientSelectionId doc) c
                (InvoiceFormState.currency doc) (InvoiceFormState.taxRate doc) a m
                (InvoiceFormState.terms doc) (InvoiceFormState.additionalNote doc)))).
  { subst h'. apply lookup_insert_eq. }
  assert (Hi : items_at h' ls = Some (InvoiceFormState.lineItems doc)).
  { apply (items_at_agree h2); [exact Hitems |].
    intros l Hl.
    pose proof (items_at_dom _ _ _ Hitems l Hl) as Hd.
    apply elem_of_dom in Hd as [v Hv]. rewrite Hv.
    apply (lookup_weaken h2); [exact Hv |].
    etrans; [exact S3 |]. etrans; [exact S4 | exact S5]. }
  split; [|split].
  - etrans; [exact S1 |]. etrans; [exact S2 |]. etrans; [exact S3 |].
    etrans; [exact S4 | exact S5].
  - unfold state_at, object_at, client_at, array_at, meta_at.
    rewrite Hr. cbn. rewrite Hc. cbn. rewrite Ha. cbn. rewrite Hi. cbn. rewrite Hm. cbn.
    destruct doc; reflexivity.
  - intros l. unfold footprint, object_at, array_at. rewrite Hr. cbn. rewrite Ha.
    rewrite !elem_of_union, !elem_of_singleton, elem_of_list_to_set.
    intros [[[[-> | ->] | ->] | ->] | Hl].
    + eapply lookup_weaken_None; [exact N5 |].
      etrans; [exact S1 |]. etrans; [exact S2 |]. etrans; [exact S3 | exact S4].
    + exact N1.
    + eapply lookup_weaken_None; [exact N3 |]. etrans; [exact S1 | exact S2].
    + eapply lookup_weaken_None; [exact N4 |].
      etrans; [exact S1 |]. etrans; [exact S2 | exact S3].
    + eapply lookup_weaken_None; [exact (Fls l Hl) | exact S1].
Qed.

(** Numbers that JSON writes and reads back unchanged make a state that the
    round trip leaves as it is. *)
Lemma roundtrip_number_stable (v : numeric) :
  JSON.stable_number v = true -> JSON.number_roundtrip v = v.
Proof.
  destruct v as [[s| s | |s m e]|]; cbn; try reflexivity; try discriminate.
  destruct s; [discriminate | reflexivity].
Qed.

Lemma roundtrip_stable (state : InvoiceFormState.t) :
  JSON.stable state = true -> JSON.roundtrip state = state.
Proof.
  destruct state as [sel cl cur tax items meta terms note].
  unfold JSON.stable, JSON.roundtrip. cbn.
  intro H. apply andb_true_iff in H as [Htax Hitems].
  rewrite (roundtrip_number_stable _ Htax). f_equal.
  induction items as [|item items IH]; [reflexivity |].
  cbn in Hitems |- *. apply andb_true_iff in Hitems as [Hitem Hrest].
  rewrite (IH Hrest). f_equal.
  destruct item. unfold JSON.stable_item in Hitem. cbn in Hitem.
  apply andb_true_iff in Hitem as [Hqp Hd]. apply andb_true_iff in Hqp as [Hq Hp].
  unfold JSON.item_roundtrip. cbn.
  now rewrite !roundtrip_number_stable.
Qed.

(** Writes to other objects are not seen at [l]. *)
Lemma write_all_lookup_other (writes : list (loc * cell)) (h : heap) (l : loc) :
  (forall w, w ∈ writes -> w.1 <> l) -> write_all writes h !! l = h !! l.
Proof.
  unfold write_all. revert h.
  induction writes as [|w writes IH]; intros h Hw; [reflexivity |].
  cbn [foldl]. rewrite IH by (intros w' Hin; apply Hw; now right).
  apply lookup_insert_ne. apply Hw. left.
Qed.

Lemma cloneFormState_value (h : heap) (r : loc) (s : InvoiceFormState.t) :
  state_at h r = Some s ->
  exists h' r',
    Mem.cloneFormState h r = Some (h', r')
    /\ h ⊆ h'
    /\ state_at h' r' = Some (JSON.roundtrip s)
    /\ (forall l, l ∈ footprint h' r' -> h !! l = None).
Proof.
  intro H.
  destruct (JSON_parse (JSON.roundtrip s) h) as [h' r'] eqn:E.
  exists h', r'. split; [|now apply JSON_parse_spec].
  unfold Mem.cloneFormState, JSON_stringify. rewrite H.
  cbn [mbind option_bind]. now rewrite E.
Qed.

(** C8, as the code has it. For every [InvoiceFormState] held in memory,
    [cloneFormState] returns a state made of new objects only: none of them
    existed before the call, so the copy shares no object with the original
    (nor with any other state, archived or working, that existed then), and
    the call itself leaves the original as it was. Writing anything to any
    object of the copy leaves the original unchanged, and writing anything to
    any object of the original leaves the copy unchanged. The copy holds the
    values of the original as JSON writes them: it is structurally equal to
    the original when every numeric field is a finite number other than -0
    (or null); [NaN] and the infinities come back as null, and -0 as 0. *)
Theorem cloneFormState_independent (h : heap) (r : loc) (s : InvoiceFormState.t) :
  state_at h r = Some s ->
  exists h' r',
    Mem.cloneFormState h r = Some (h', r')
    /\ state_at h' r' = Some (JSON.roundtrip s)
    /\ (JSON.stable s = true -> state_at h' r' = Some s)
    /\ state_at h' r = Some s
    /\ footprint h' r = footprint h r
    /\ (forall l, l ∈ footprint h' r' -> l ∉ dom h)
    /\ footprint h' r' ## footprint h r
    /\ (forall writes,
          (forall w, w ∈ writes -> w.1 ∈ footprint h' r') ->
          state_at (write_all writes h') r = Some s)
    /\ (forall writes,
          (forall w, w ∈ writes -> w.1 ∈ footprint h r) ->
          state_at (write_all writes h') r' = Some (JSON.roundtrip s)).
Proof.
  intro H.
  destruct (cloneFormState_value h r s H) as (h' & r' & Hclone & Hsub & Hval & Hfresh).
  exists h', r'.
  destruct (state_at_agree h h' r s H) as [Hr Hfp].
  { intros l Hl. apply (footprint_dom h r s H) in Hl.
    apply elem_of_dom in Hl as [v Hv]. rewrite Hv. now apply (lookup_weaken h). }
  assert (Hdisj : footprint h' r' ## footprint h r).
  { intros l Hl' Hl. apply (footprint_dom h r s H) in Hl.
    apply not_elem_of_dom in Hl; [exact Hl | now apply Hfresh]. }
  split; [exact Hclone |]. split; [exact Hval |]. split.
  { intro Hst. rewrite Hval. now rewrite (roundtrip_stable s Hst). }
  split; [exact Hr |]. split; [exact Hfp |]. split.
  { intros l Hl. apply not_elem_of_dom. now apply Hfresh. }
  split; [exact Hdisj |]. split.
  - intros writes Hw. apply (state_at_agree h'); [exact Hr |].
    intros l0 Hl0. apply write_all_lookup_other.
    intros w Hin E. rewrite Hfp in Hl0. rewrite <- E in Hl0. exact (Hdisj _ (Hw w Hin) Hl0).
  - intros writes Hw. apply (state_at_agree h'); [exact Hval |].
    intros l0 Hl0. apply write_all_lookup_other.
    intros w Hin E. rewrite <- E in Hl0. exact (Hdisj _ Hl0 (Hw w Hin)).
Qed.

Lemma cloneFormState_independent_witness :
  exists h' r',
    Mem.cloneFormState (heap_of (Num (ofZ 18))) 5%positive = Some (h', r')
    /\ state_at h' r' = Some state_one_item
    /\ state_at h' 5%positive = Some state_one_item
    /\ state_at (write_all [] h') 5%positive = Some state_one_item
    /\ state_at (write_all [(3%positive, ArrayCell []); (2%positive, MetaCell sample_meta)] h') r'
       = Some (JSON.roundtrip state_one_item).
Proof.
  destruct (cloneFormState_independent (heap_of (Num (ofZ 18))) 5%positive state_one_item)
    as (h' & r' & Hclone & _ & Hstable & Horig & _ & _ & _ & Hcopy & Hthis); [reflexivity |].
  exists h', r'. split; [exact Hclone |]. split; [apply Hstable; reflexivity |].
  split; [exact Horig |]. split.
  - apply Hcopy. intros w Hin. inversion Hin.
  - apply Hthis. intros w Hin.
    apply elem_of_cons in Hin as [-> | Hin];
      [|apply list_elem_of_singleton in Hin as ->];
      apply (bool_decide_unpack _); vm_compute; exact I.
Defined.

(** C8, as stated, fails on structural equality: a state whose tax rate is
    [Infinity] is cloned into a state whose tax rate is null. *)
Lemma clone_of_infinite_rate_differs :
  state_at (heap_of (Num Infinity)) 5%positive = Some state_with_infinite_rate
  /\ (exists h' r',
        Mem.cloneFormState (heap_of (Num Infinity)) 5%positive = Some (h', r')
        /\ state_at h' r' = Some state_with_null_rate)
  /\ state_with_null_rate <> state_with_infinite_rate
  /\ JSON.roundtrip state_with_infinite_rate = state_with_null_rate.
Proof.
  split; [reflexivity |]. split; [|split; [|reflexivity]].
  - destruct (Mem.cloneFormState (heap_of (Num Infinity)) 5%positive) as [[h' r']|] eqn:E;
      [|vm_compute in E; discriminate E].
    exists h', r'. split; [reflexivity |].
    assert (H : (p ← Mem.cloneFormState (heap_of (Num Infinity)) 5%positive;
                 state_at p.1 p.2) = Some state_with_null_rate) by (vm_compute; reflexivity).
    rewrite E in H. exact H.
  - intro H. apply (f_equal InvoiceFormState.taxRate) in H. discriminate H.
Qed.

End MemFacts.

(** * Further properties *)

(** ** Rounding never yields [NaN] *)

Lemma shr_1_nonneg (mrs : shr_record) : (0 <= shr_m mrs)%Z -> (0 <= shr_m (shr_1 mrs))%Z.
Proof.
  destruct mrs as [m r s]. cbn [shr_m]. intro H.
  destruct m as [|p|p]; [cbn; lia | | lia].
  destruct p; cbn; lia.
Qed.

Lemma iter_shr_1_nonneg (p : positive) (mrs : shr_record) :
  (0 <= shr_m mrs)%Z -> (0 <= shr_m (SpecFloat.iter_pos shr_1 p mrs))%Z.
Proof.
  revert mrs. induction p as [p IH | p IH |]; intros mrs H; cbn [SpecFloat.iter_pos].
  - apply IH, IH, shr_1_nonneg, H.
  - apply IH, IH, H.
  - apply shr_1_nonneg, H.
Qed.

Lemma shr_fexp_nonneg (m e : Z) (l : location) :
  (0 <= m)%Z -> (0 <= shr_m (fst (shr_fexp prec emax m e l)))%Z.
Proof.
  intro H. unfold shr_fexp, shr.
  assert (H0 : (0 <= shr_m (shr_record_of_loc m l))%Z).
  { destruct l as [|[]]; exact H. }
  destruct (fexp prec emax (Zdigits2 m + e) - e)%Z; cbn [fst]; try exact H0.
  now apply iter_shr_1_nonneg.
Qed.

Lemma round_nearest_even_nonneg (m : Z) (l : location) :
  (0 <= m)%Z -> (0 <= round_nearest_even m l)%Z.
Proof.
  intro H. destruct l as [|[]]; cbn; try lia. destruct (Z.even m); lia.
Qed.

Lemma binary_round_aux_signed (sx : bool) (mx ex : Z) (lx : location) :
  (0 <= mx)%Z -> signed sx (binary_round_aux prec emax sx mx ex lx).
Proof.
  intro H. unfold binary_round_aux.
  pose proof (shr_fexp_nonneg mx ex lx H) as H1.
  destruct (shr_fexp prec emax mx ex lx) as [mrs' e']. cbn [fst] in H1.
  pose proof (shr_fexp_nonneg _ e' loc_Exact
                (round_nearest_even_nonneg _ (loc_of_shr_record mrs') H1)) as H2.
  destruct (shr_fexp prec emax (round_nearest_even (shr_m mrs') (loc_of_shr_record mrs'))
              e' loc_Exact) as [mrs'' e''].
  cbn [fst] in H2.
  destruct (shr_m mrs'') as [|m|m]; [left; reflexivity | | lia].
  destruct (e'' <=? emax - prec)%Z; [right; left; eauto | right; right; reflexivity].
Qed.

Lemma binary_normalize_signed (m e : Z) :
  m <> 0%Z -> signed (m <? 0)%Z (binary_normalize prec emax m e false).
Proof.
  intro H. destruct m as [|p|p]; [congruence | |]; cbn [binary_normalize Z.ltb Z.compare];
    unfold binary_round;
    destruct (shl_align _ _ _) as [mz ez]; apply binary_round_aux_signed; lia.
Qed.

Lemma signed_not_NaN (s : bool) (x : number) : signed s x -> isNaN x = false.
Proof. intros [-> | [(m & e & ->) | ->]]; reflexivity. Qed.

Lemma binary_normalize_not_NaN (m e : Z) (s : bool) :
  isNaN (binary_normalize prec emax m e s) = false.
Proof.
  destruct m as [|p|p]; [reflexivity | |];
    cbn [binary_normalize]; unfold binary_round;
    destruct (shl_align _ _ _) as [mz ez];
    eapply signed_not_NaN, binary_round_aux_signed; lia.
Qed.

Lemma signed_false_nonnegative (x : number) : signed false x -> nonnegative x = true.
Proof. intros [-> | [(m & e & ->) | ->]]; reflexivity. Qed.

Lemma nonnegative_not_NaN (x : number) : nonnegative x = true -> isNaN x = false.
Proof. destruct x as [s| s | |s m e]; try reflexivity; discriminate. Qed.

Lemma nonnegative_geb (x : number) : nonnegative x = true -> (x >=? ofZ 0)%num = true.
Proof.
  destruct x as [s| s | |s m e]; try discriminate; destruct s; try discriminate; reflexivity.
Qed.

Lemma add_nonnegative (x y : number) :
  nonnegative x = true -> nonnegative y = true -> nonnegative (x + y)%num = true.
Proof.
  destruct x as [sx| sx | |sx mx ex]; destruct y as [sy| sy | |sy my ey];
    try discriminate; intros Hx Hy;
    try (destruct sx; try discriminate Hx); try (destruct sy; try discriminate Hy);
    try reflexivity.
  apply signed_false_nonnegative.
  unfold add, SFadd. cbn [cond_Zopp].
  destruct (shl_align mx ex (Z.min ex ey)) as [mx' ex'].
  destruct (shl_align my ey (Z.min ex ey)) as [my' ey'].
  cbn [fst Z.add].
  apply (binary_normalize_signed (Z.pos (mx' + my')) (Z.min ex ey)). discriminate.
Qed.

Lemma mul_finite_nonnegative (q p : numeric) :
  finite_nonnegative q = true -> finite_nonnegative p = true ->
  nonnegative (q * p)%num = true.
Proof.
  destruct q as [[sx| sx | |sx mx ex]|]; try discriminate;
    destruct p as [[sy| sy | |sy my ey]|]; try discriminate; intros Hq Hp;
    try (destruct sx; try discriminate Hq); try (destruct sy; try discriminate Hp);
    try reflexivity.
  apply signed_false_nonnegative. cbn [ToNumber]. unfold mul, SFmul. cbn [xorb].
  apply binary_round_aux_signed. lia.
Qed.

Lemma sub_finite_not_NaN (x y : number) :
  isFinite x = true -> isFinite y = true -> isNaN (x - y)%num = false.
Proof.
  destruct x as [sx| sx | |sx mx ex]; destruct y as [sy| sy | |sy my ey];
    try discriminate; intros _ _; try reflexivity.
  - destruct sx, sy; reflexivity.
  - unfold sub, SFsub. apply binary_normalize_not_NaN.
Qed.

(** X1. When neither sum overflows (the subtotal and the discount total are
    finite), the taxable amount is a number and it is [>= 0]. *)
Theorem totals_without_overflow (formState : InvoiceFormState.t) :
  let t := totals formState in
  isFinite (subtotal t) = true ->
  isFinite (discountTotal t) = true ->
  isNaN (taxableAmount t) = false /\ (taxableAmount t >=? ofZ 0)%num = true.
Proof.
  intros t Hs Hd.
  pose proof (sub_finite_not_NaN _ _ Hs Hd) as H.
  unfold t, totals in *. cbn [taxableAmount subtotal discountTotal] in *.
  split; [now rewrite Math_max_0_isNaN | now apply Math_max_0_nonneg].
Qed.

Lemma sum_from_nonnegative (terms : list number) (acc : number) :
  nonnegative acc = true ->
  Forall (fun term => nonnegative term = true) terms ->
  nonnegative (TotalsSpec.sum_from acc terms) = true.
Proof.
  revert acc. induction terms as [|term terms IH]; intros acc Hacc Hterms; [exact Hacc |].
  cbn [TotalsSpec.sum_from]. apply Forall_cons in Hterms as [Hterm Hterms].
  apply IH; [now apply add_nonnegative | exact Hterms].
Qed.

(** X2. When every quantity and every unit price is a finite number that is
    not negative, the subtotal is never [NaN] and it is [>= 0] (it may be
    [Infinity]). *)
Theorem subtotal_nonnegative (formState : InvoiceFormState.t) :
  Forall (fun item => finite_nonnegative (LineItem.quantity item) = true
                      /\ finite_nonnegative (LineItem.unitPrice item) = true)
         (InvoiceFormState.lineItems formState) ->
  isNaN (subtotal (totals formState)) = false
  /\ (subtotal (totals formState) >=? ofZ 0)%num = true.
Proof.
  intro H.
  assert (Hn : nonnegative (subtotal (totals formState)) = true).
  { unfold totals. cbn [subtotal].
    rewrite (reduce_sum_from TotalsSpec.amount).
    apply sum_from_nonnegative; [reflexivity |].
    apply Forall_fmap. eapply Forall_impl; [exact H |].
    intros item [Hq Hp]. now apply mul_finite_nonnegative. }
  split; [now apply nonnegative_not_NaN | now apply nonnegative_geb].
Qed.


(** ** The issues of the validator *)

Lemma elem_of_report (rs : list ValidatorSpec.rule) (state : InvoiceFormState.t)
    (issue : string) :
  issue ∈ ValidatorSpec.report rs state
  <-> exists r, r ∈ rs /\ ValidatorSpec.violated r state = true
                /\ ValidatorSpec.message r = issue.
Proof.
  induction rs as [|r rs IH]; cbn [ValidatorSpec.report].
  - split; [intro H; inversion H | intros (r & H & _); inversion H].
  - destruct (ValidatorSpec.violated r state) eqn:E.
    + rewrite elem_of_cons, IH. split.
      * intros [-> | (r' & Hin & Hv & Hm)]; [exists r; repeat split; [left | exact E] |].
        exists r'. repeat split; [now right | exact Hv | exact Hm].
      * intros (r' & Hin & Hv & Hm). apply elem_of_cons in Hin as [-> | Hin];
          [now left | right; eauto].
    + rewrite IH. split.
      * intros (r' & Hin & Hv & Hm). exists r'. repeat split; [now right | exact Hv | exact Hm].
      * intros (r' & Hin & Hv & Hm). apply elem_of_cons in Hin as [-> | Hin];
          [congruence | eauto].
Qed.

Lemma report_sublist (rs : list ValidatorSpec.rule) (state : InvoiceFormState.t) :
  sublist (ValidatorSpec.report rs state) (map ValidatorSpec.message rs).
Proof.
  induction rs as [|r rs IH]; cbn [ValidatorSpec.report map]; [constructor |].
  destruct (ValidatorSpec.violated r state); [now apply sublist_skip | now apply sublist_cons].
Qed.

Lemma report_nil (rs : list ValidatorSpec.rule) (state : InvoiceFormState.t) :
  ValidatorSpec.report rs state = []
  <-> forall r, r ∈ rs -> ValidatorSpec.violated r state = false.
Proof.
  induction rs as [|r rs IH]; cbn [ValidatorSpec.report].
  - split; [intros _ r H; inversion H | reflexivity].
  - destruct (ValidatorSpec.violated r state) eqn:E.
    + split; [discriminate |]. intro H. specialize (H r (list_elem_of_here _ _)). congruence.
    + rewrite IH. split.
      * intros H r' Hin. apply elem_of_cons in Hin as [-> | Hin]; [exact E | now apply H].
      * intros H r' Hin. apply H. now right.
Qed.

(** X4. The validator never reports an issue twice and never more than
    twelve issues; an issue is reported exactly when a rule with that message
    is violated; the list is empty exactly when no rule is violated. *)
Theorem validateInvoice_issues (Date_getTime : string -> number) (state : InvoiceFormState.t) :
  let issues := validateInvoice Date_getTime state in
  NoDup issues
  /\ (length issues <= 12)%nat
  /\ (forall issue,
         issue ∈ issues
         <-> exists r, r ∈ ValidatorSpec.rules Date_getTime
                       /\ ValidatorSpec.violated r state = true
                       /\ ValidatorSpec.message r = issue)
  /\ (issues = []
      <-> forall r, r ∈ ValidatorSpec.rules Date_getTime ->
                    ValidatorSpec.violated r state = false).
Proof.
  intro issues. subst issues. rewrite validateInvoice_report.
  pose proof (report_sublist (ValidatorSpec.rules Date_getTime) state) as Hsub.
  split; [|split; [|split]].
  - eapply sublist_NoDup; [|exact Hsub].
    cbn [ValidatorSpec.rules map ValidatorSpec.message].
    apply (bool_decide_unpack _). vm_compute. exact I.
  - apply sublist_length in Hsub. exact Hsub.
  - intro issue. apply elem_of_report.
  - apply report_nil.
Qed.

(** ** Line items *)

Lemma line_item_issue_reported (Date_getTime : string -> number)
    (state : InvoiceFormState.t) (item : LineItem.t) :
  item ∈ InvoiceFormState.lineItems state ->
  bad_line_item item = true ->
  line_item_issue ∈ validateInvoice Date_getTime state.
Proof.
  intros Hin Hbad. rewrite validateInvoice_report. apply elem_of_report.
  eexists (ValidatorSpec.mkRule _ line_item_issue).
  split; [|split; [|reflexivity]].
  - unfold ValidatorSpec.rules. do 11 right. left.
  - cbn [ValidatorSpec.violated]. unfold some. apply existsb_exists.
    exists item. split; [now apply list_elem_of_In | exact Hbad].
Qed.

Lemma map_items_no_match (id : string) (f : LineItem.t -> LineItem.t)
    (items : list LineItem.t) :
  (forall item, item ∈ items -> LineItem.id item <> id) ->
  map (fun item => if str_eq (LineItem.id item) id then f item else item) items = items.
Proof.
  induction items as [|item items IH]; intro Hno; [reflexivity |].
  cbn [map]. rewrite IH by (intros x Hx; apply Hno; now right).
  unfold str_eq. rewrite bool_decide_eq_false_2 by (apply Hno; left). reflexivity.
Qed.

(** X5. An edit of a field of a line item changes nothing but the line
    items, keeps their number and, for every field but the id, their ids in
    their order; when no item carries the id the state is returned as it
    was. *)
Theorem handleLineItemFieldChange_frame (id : string) (field : LineItemField)
    (value : FieldType field) (prev : InvoiceFormState.t) :
  let next := handleLineItemFieldChange id field value prev in
  next = InvoiceFormState.with_lineItems prev (InvoiceFormState.lineItems next)
  /\ length (InvoiceFormState.lineItems next) = length (InvoiceFormState.lineItems prev)
  /\ (field <> f_id ->
      map LineItem.id (InvoiceFormState.lineItems next)
      = map LineItem.id (InvoiceFormState.lineItems prev))
  /\ ((forall item, item ∈ InvoiceFormState.lineItems prev -> LineItem.id item <> id) ->
      next = prev).
Proof.
  intro next. subst next. unfold handleLineItemFieldChange.
  cbn [InvoiceFormState.with_lineItems InvoiceFormState.lineItems].
  split; [reflexivity |]. split; [apply length_map |]. split.
  - intro Hf. rewrite map_map. apply map_ext. intro item.
    destruct (str_eq (LineItem.id item) id); [|reflexivity].
    destruct item, field; try reflexivity. contradiction.
  - intro Hno. rewrite map_items_no_match by exact Hno. apply with_lineItems_same.
Qed.

Lemma set_field_id (item : LineItem.t) (field : LineItemField) (value : FieldType field) :
  field <> f_id -> LineItem.id (set_field item field value) = LineItem.id item.
Proof. intro H. destruct item, field; try reflexivity. contradiction. Qed.

Lemma set_field_twice (item : LineItem.t) (field : LineItemField) (v w : FieldType field) :
  set_field (set_field item field v) field w = set_field item field w.
Proof. destruct item, field; reflexivity. Qed.

Lemma set_field_commute (item : LineItem.t) (f g : LineItemField)
    (v : FieldType f) (w : FieldType g) :
  f <> g -> set_field (set_field item f v) g w = set_field (set_field item g w) f v.
Proof. intro H. destruct item, f, g; try reflexivity; contradiction. Qed.

(** X6. For every field but the id: of two edits of the same field of the
    same item the later one wins, and edits of two different fields commute,
    whatever the items they address. *)
Theorem handleLineItemFieldChange_compose (prev : InvoiceFormState.t)
    (id : string) (field : LineItemField) (v w : FieldType field) :
  field <> f_id ->
  handleLineItemFieldChange id field w (handleLineItemFieldChange id field v prev)
  = handleLineItemFieldChange id field w prev
  /\ forall (id' : string) (field' : LineItemField) (v' : FieldType field'),
      field' <> f_id -> field <> field' ->
      handleLineItemFieldChange id field v (handleLineItemFieldChange id' field' v' prev)
      = handleLineItemFieldChange id' field' v' (handleLineItemFieldChange id field v prev).
Proof.
  intro Hf. unfold handleLineItemFieldChange.
  cbn [InvoiceFormState.with_lineItems InvoiceFormState.lineItems].
  split.
  - f_equal. rewrite map_map. apply map_ext. intro item.
    destruct (str_eq (LineItem.id item) id) eqn:E.
    + rewrite set_field_id by exact Hf. rewrite E. apply set_field_twice.
    + rewrite E. reflexivity.
  - intros id' field' v' Hf' Hne. f_equal. rewrite !map_map. apply map_ext. intro item.
    destruct (str_eq (LineItem.id item) id) eqn:E;
      destruct (str_eq (LineItem.id item) id') eqn:E';
      rewrite ?set_field_id by assumption; rewrite ?E, ?E'; try reflexivity.
    now apply set_field_commute.
Qed.

(** X7. Entries that the validator always reports, for an item that exists:
    a quantity entry that does not parse or is zero, and a negative entry into
    the quantity, the unit price or the discount rate. *)
Theorem falsy_entries_are_reported (Number Date_getTime : string -> number)
    (itemId value : string) (prev : InvoiceFormState.t) (item : LineItem.t) :
  item ∈ InvoiceFormState.lineItems prev ->
  LineItem.id item = itemId ->
  (truthy (Number value) = false ->
   line_item_issue ∈ validateInvoice Date_getTime (onQuantityChange Number itemId value prev))
  /\ ((Number value <? ofZ 0)%num = true ->
      line_item_issue ∈ validateInvoice Date_getTime (onQuantityChange Number itemId value prev)
      /\ line_item_issue
           ∈ validateInvoice Date_getTime (onUnitPriceChange Number itemId value prev)
      /\ line_item_issue
           ∈ validateInvoice Date_getTime (onDiscountRateChange Number itemId value prev)).
Proof.
  intros Hin Hid.
  assert (Hmem : forall field (v : FieldType field),
             set_field item field v
               ∈ InvoiceFormState.lineItems (handleLineItemFieldChange itemId field v prev)).
  { intros field v. unfold handleLineItemFieldChange.
    cbn [InvoiceFormState.with_lineItems InvoiceFormState.lineItems].
    apply list_elem_of_fmap. exists item. split; [|exact Hin].
    unfold str_eq. now rewrite bool_decide_eq_true_2. }
  split.
  - intro Hfalsy. eapply line_item_issue_reported; [apply (Hmem f_quantity) |].
    destruct item. unfold bad_line_item, or_else. rewrite Hfalsy.
    cbn [set_field LineItem.quantity ToNumber]. apply orb_true_iff. left.
    apply orb_true_iff. left. apply orb_true_iff. right. reflexivity.
  - intro Hneg. unfold onQuantityChange, onUnitPriceChange, onDiscountRateChange.
    rewrite (or_else_0_of_negative _ Hneg).
    assert (Hle : (Number value <=? ofZ 0)%num = true).
    { destruct (Number value) as [s| s | |s m e]; try discriminate Hneg;
        destruct s; try discriminate Hneg; reflexivity. }
    repeat split.
    + eapply line_item_issue_reported; [apply (Hmem f_quantity) |].
      destruct item. unfold bad_line_item.
      cbn [set_field LineItem.quantity ToNumber]. rewrite Hle.
      now rewrite orb_true_r.
    + eapply line_item_issue_reported; [apply (Hmem f_unitPrice) |].
      destruct item. unfold bad_line_item.
      cbn [set_field LineItem.unitPrice ToNumber]. rewrite Hneg.
      now rewrite orb_true_r.
    + eapply line_item_issue_reported; [apply (Hmem f_discountRate) |].
      destruct item. unfold bad_line_item.
      cbn [set_field LineItem.discountRate ToNumber]. rewrite Hneg.
      now rewrite orb_true_r.
Qed.

(** X8. Adding a line item appends one item (quantity 1, unit price 0,
    discount 0, empty description, the generated id) after the existing ones,
    which keep their positions; the validator then reports the line-item issue
    (the description is empty) and does not report a missing line item. *)
Theorem handleAddLineItem_spec (Date_getTime : string -> number) (env : Env.t)
    (prev : InvoiceFormState.t) :
  let next := handleAddLineItem env prev in
  let created :=
    LineItem.mk (Env.generateId env) "" "" (Num (ofZ 1)) (Num (ofZ 0)) (Num (ofZ 0)) (Some "") in
  next = InvoiceFormState.with_lineItems prev (InvoiceFormState.lineItems prev ++ [created])
  /\ length (InvoiceFormState.lineItems next) = S (length (InvoiceFormState.lineItems prev))
  /\ (forall i item,
         InvoiceFormState.lineItems prev !! i = Some item ->
         InvoiceFormState.lineItems next !! i = Some item)
  /\ InvoiceFormState.lineItems next !! length (InvoiceFormState.lineItems prev) = Some created
  /\ line_item_issue ∈ validateInvoice Date_getTime next
  /\ "At least one line item is required." ∉ validateInvoice Date_getTime next.
Proof.
  intros next created. subst next. unfold handleAddLineItem.
  cbn [InvoiceFormState.with_lineItems InvoiceFormState.lineItems].
  change (createLineItem (Env.generateId env) None) with created.
  split; [reflexivity |]. split; [rewrite length_app; cbn; lia |]. split.
  { intros i item Hi. now apply lookup_app_l_Some. }
  split.
  { rewrite lookup_app_r by lia. now rewrite Nat.sub_diag. }
  split.
  - apply (line_item_issue_reported _ _ created); [|reflexivity].
    cbn [InvoiceFormState.lineItems]. apply elem_of_app. right. left.
  - rewrite validateInvoice_report, elem_of_report.
    intros (r & Hin & Hv & Hm).
    unfold ValidatorSpec.rules in Hin.
    repeat (apply elem_of_cons in Hin as [-> | Hin]; [try discriminate Hm |]);
      try (inversion Hin; fail).
    cbn [ValidatorSpec.violated InvoiceFormState.lineItems InvoiceFormState.with_lineItems] in Hv.
    rewrite length_app in Hv. cbn in Hv. apply Nat.eqb_eq in Hv. lia.
Qed.

(** X9. When the generated id is not in use, removing the item that was just
    added gives back the state as it was, provided there was at least one item
    before; on an empty list the added item cannot be removed again. *)
Theorem add_then_remove (env : Env.t) (prev : InvoiceFormState.t) :
  (forall item, item ∈ InvoiceFormState.lineItems prev ->
                LineItem.id item <> Env.generateId env) ->
  (InvoiceFormState.lineItems prev <> [] ->
   handleRemoveLineItem (Env.generateId env) (handleAddLineItem env prev) = prev)
  /\ (InvoiceFormState.lineItems prev = [] ->
      handleRemoveLineItem (Env.generateId env) (handleAddLineItem env prev)
      = handleAddLineItem env prev).
Proof.
  intro Hfresh. unfold handleRemoveLineItem, handleAddLineItem.
  cbn [InvoiceFormState.with_lineItems InvoiceFormState.lineItems].
  split; intro H.
  - assert (Hlen : (1 <? length (InvoiceFormState.lineItems prev
                                 ++ [createLineItem (Env.generateId env) None]))%nat = true).
    { apply Nat.ltb_lt. rewrite length_app. cbn [length].
      destruct (InvoiceFormState.lineItems prev); [congruence | cbn; lia]. }
    rewrite Hlen.
    rewrite filter_app, filter_cons_False, filter_nil, app_nil_r
      by (cbn; intro Hne; now apply Hne).
    assert (Hall : forall items : list LineItem.t,
               (forall item, item ∈ items -> LineItem.id item <> Env.generateId env) ->
               filter (fun item => LineItem.id item <> Env.generateId env) items = items).
    { induction items as [|x l IH]; intro Hl; [reflexivity |].
      rewrite filter_cons_True by (apply Hl; left).
      f_equal. apply IH. intros y Hy. apply Hl. now right. }
    rewrite (Hall _ Hfresh). destruct prev; reflexivity.
  - rewrite H. reflexivity.
Qed.

(** ** Services and clients *)

(** X10. A change of service keeps the number of items, and the id, the
    quantity, the discount rate and the notes of each; it leaves the items
    with another id as they are; the items with the id get the service id,
    and, when the catalog knows the service, its description and unit rate;
    when it does not, they keep their description and unit price. *)
Theorem handleServiceChange_spec (serviceLookup : string -> option Service.t)
    (id serviceId : string) (prev : InvoiceFormState.t) :
  let next := handleServiceChange serviceLookup id serviceId prev in
  next = InvoiceFormState.with_lineItems prev (InvoiceFormState.lineItems next)
  /\ length (InvoiceFormState.lineItems next) = length (InvoiceFormState.lineItems prev)
  /\ forall i item,
      InvoiceFormState.lineItems prev !! i = Some item ->
      exists item',
        InvoiceFormState.lineItems next !! i = Some item'
        /\ LineItem.id item' = LineItem.id item
        /\ LineItem.quantity item' = LineItem.quantity item
        /\ LineItem.discountRate item' = LineItem.discountRate item
        /\ LineItem.notes item' = LineItem.notes item
        /\ (LineItem.id item <> id -> item' = item)
        /\ (LineItem.id item = id ->
            LineItem.serviceId item' = serviceId
            /\ (serviceLookup serviceId = None ->
                LineItem.description item' = LineItem.description item
                /\ LineItem.unitPrice item' = LineItem.unitPrice item)
            /\ (forall service, serviceLookup serviceId = Some service ->
                LineItem.description item' = Service.description service
                /\ LineItem.unitPrice item' = Num (Service.unitRate service))).
Proof.
  intro next. subst next. unfold handleServiceChange.
  cbn [InvoiceFormState.with_lineItems InvoiceFormState.lineItems].
  split; [reflexivity |]. split; [apply length_map |].
  intros i item Hi. rewrite list_lookup_fmap, Hi. cbn [fmap option_fmap option_map].
  eexists. split; [reflexivity |].
  unfold str_eq. case_bool_decide as E.
  - cbn [LineItem.id LineItem.quantity LineItem.discountRate LineItem.notes
         LineItem.serviceId LineItem.description LineItem.unitPrice].
    do 4 (split; [reflexivity |]). split; [intro; contradiction |].
    intros _. split; [reflexivity |]. split.
    + intro Hnone. rewrite Hnone. split; reflexivity.
    + intros service Hsome. rewrite Hsome. split; reflexivity.
  - do 4 (split; [reflexivity |]). split; [reflexivity | intro; contradiction].
Qed.


(** ** The invoice number *)




(** ** More of the archive *)

Lemma handleDeleteSavedInvoice_unfold (env : Env.t) (id : string) (c : Component.t) :
  handleDeleteSavedInvoice env id c
  = if Env.window_defined env && negb (Env.confirm env "Delete this saved invoice copy?")
    then c
    else Component.mk (Component.formState c) (Component.layoutMode c)
           (filter (fun inv => StoredInvoice.id inv <> id) (Component.savedInvoices c))
           (if str_eq (Component.selectedSavedInvoiceId c) id
            then "" else Component.selectedSavedInvoiceId c)
           (Component.hasUserSelectedLayout c).
Proof.
  unfold handleDeleteSavedInvoice.
  destruct (Env.window_defined env); cbn [andb];
    [destruct (Env.confirm env _); cbn [negb] |];
    try reflexivity;
    destruct (str_eq (Component.selectedSavedInvoiceId c) id); reflexivity.
Qed.

Lemma filter_other_ids_all (id : string) (l : list StoredInvoice.t) :
  (forall inv, inv ∈ l -> StoredInvoice.id inv <> id) ->
  filter (fun inv => StoredInvoice.id inv <> id) l = l.
Proof.
  induction l as [|x l IH]; intro H; [reflexivity |].
  rewrite filter_cons_True by (apply H; left).
  f_equal. apply IH. intros y Hy. apply H. now right.
Qed.

(** X13. When the user declines the prompt, delete changes nothing. Otherwise
    the archive keeps exactly the entries with another id, in their order (it
    is unchanged when no entry has the id), the selection is cleared exactly
    when it was the deleted id, and the working state and the layout are as
    before. *)
Theorem handleDeleteSavedInvoice_spec (env : Env.t) (id : string) (c : Component.t) :
  let c' := handleDeleteSavedInvoice env id c in
  let declined :=
    Env.window_defined env && negb (Env.confirm env "Delete this saved invoice copy?") in
  (declined = true -> c' = c)
  /\ (declined = false ->
      Component.savedInvoices c'
      = filter (fun inv => StoredInvoice.id inv <> id) (Component.savedInvoices c)
      /\ (forall inv, inv ∈ Component.savedInvoices c'
                      <-> inv ∈ Component.savedInvoices c /\ StoredInvoice.id inv <> id)
      /\ sublist (Component.savedInvoices c') (Component.savedInvoices c)
      /\ ((forall inv, inv ∈ Component.savedInvoices c -> StoredInvoice.id inv <> id) ->
          Component.savedInvoices c' = Component.savedInvoices c)
      /\ Component.selectedSavedInvoiceId c'
         = (if str_eq (Component.selectedSavedInvoiceId c) id
            then "" else Component.selectedSavedInvoiceId c)
      /\ Component.formState c' = Component.formState c
      /\ Component.layoutMode c' = Component.layoutMode c).
Proof.
  intros c' declined. subst c'. rewrite handleDeleteSavedInvoice_unfold. fold declined.
  split; intro H; rewrite H; [reflexivity |].
  cbn [Component.savedInvoices Component.selectedSavedInvoiceId Component.formState
       Component.layoutMode].
  split; [reflexivity |]. split.
  { intro inv. rewrite list_elem_of_filter. tauto. }
  split; [apply sublist_filter |]. split; [apply filter_other_ids_all |].
  repeat split.
Qed.

Lemma filter_unique_id (l : list StoredInvoice.t) (i : nat) (inv : StoredInvoice.t) :
  NoDup (map StoredInvoice.id l) ->
  l !! i = Some inv ->
  filter (fun x => StoredInvoice.id x <> StoredInvoice.id inv) l = take i l ++ drop (S i) l.
Proof.
  revert i. induction l as [|x l IH]; intros i Hnd Hi; [discriminate Hi |].
  cbn [map] in Hnd. apply NoDup_cons in Hnd as [Hx Hnd].
  destruct i as [|i]; cbn in Hi.
  - injection Hi as ->. rewrite filter_cons_False by (intro H; now apply H).
    cbn [take drop app]. apply filter_other_ids_all.
    intros y Hy E. apply Hx. rewrite <- E. apply list_elem_of_fmap. eauto.
  - rewrite filter_cons_True.
    + cbn [take drop app]. f_equal. now apply IH.
    + intro E. apply Hx. rewrite E. apply list_elem_of_fmap.
      exists inv. split; [reflexivity |]. apply list_elem_of_lookup. eauto.
Qed.

(** X14. With pairwise distinct ids, a delete that is carried out removes the
    entry of the given id and nothing else: the archive is one entry shorter,
    the other entries keep their order, and no entry with the id is left. *)
Theorem delete_removes_exactly_one (env : Env.t) (c : Component.t) (i : nat)
    (inv : StoredInvoice.t) :
  NoDup (map StoredInvoice.id (Component.savedInvoices c)) ->
  Component.savedInvoices c !! i = Some inv ->
  Env.window_defined env && negb (Env.confirm env "Delete this saved invoice copy?") = false ->
  let c' := handleDeleteSavedInvoice env (StoredInvoice.id inv) c in
  Component.savedInvoices c'
  = take i (Component.savedInvoices c) ++ drop (S i) (Component.savedInvoices c)
  /\ S (length (Component.savedInvoices c')) = length (Component.savedInvoices c)
  /\ (forall other, other ∈ Component.savedInvoices c' ->
                    StoredInvoice.id other <> StoredInvoice.id inv).
Proof.
  intros Hnd Hi Hgo c'. subst c'. rewrite handleDeleteSavedInvoice_unfold, Hgo.
  cbn [Component.savedInvoices].
  split; [now apply filter_unique_id |]. split.
  - rewrite (filter_unique_id _ i inv Hnd Hi).
    apply lookup_lt_Some in Hi.
    rewrite length_app, length_take, length_drop. lia.
  - intros other Hin. apply list_elem_of_filter in Hin. tauto.
Qed.

(** X15. When the generated id is not in use, deleting the entry that save
    has just created gives back the archive as it was, with no entry selected;
    the working state and the layout are as before. *)
Theorem save_then_delete (Date_getTime : string -> number) (env env' : Env.t)
    (c : Component.t) :
  ArchiveSpec.goes_on Date_getTime env (Component.formState c) "Save anyway?" = true ->
  (forall inv, inv ∈ Component.savedInvoices c -> StoredInvoice.id inv <> Env.generateId env) ->
  Env.window_defined env' && negb (Env.confirm env' "Delete this saved invoice copy?") = false ->
  let c' := handleDeleteSavedInvoice env' (Env.generateId env)
              (handleSaveInvoiceCopy Date_getTime env c) in
  Component.savedInvoices c' = Component.savedInvoices c
  /\ Component.selectedSavedInvoiceId c' = ""
  /\ Component.formState c' = Component.formState c
  /\ Component.layoutMode c' = Component.layoutMode c.
Proof.
  intros Hgo Hfresh Hdel c'. subst c'.
  rewrite handleSaveInvoiceCopy_unfold, Hgo, handleDeleteSavedInvoice_unfold, Hdel.
  cbn [Component.savedInvoices Component.selectedSavedInvoiceId Component.formState
       Component.layoutMode].
  split.
  - rewrite filter_cons_False by (intro H; now apply H).
    now apply filter_other_ids_all.
  - unfold str_eq. rewrite bool_decide_eq_true_2 by reflexivity. repeat split.
Qed.

Lemma number_roundtrip_stable (v : numeric) :
  JSON.stable_number (JSON.number_roundtrip v) = true.
Proof. destruct v as [[s| s | |s m e]|]; reflexivity. Qed.

Lemma roundtrip_stable_always (state : InvoiceFormState.t) :
  JSON.stable (JSON.roundtrip state) = true.
Proof.
  unfold JSON.stable, JSON.roundtrip.
  cbn [InvoiceFormState.taxRate InvoiceFormState.lineItems].
  rewrite number_roundtrip_stable. cbn [andb].
  induction (InvoiceFormState.lineItems state) as [|item items IH]; [reflexivity |].
  cbn [map forallb]. rewrite IH, andb_true_r.
  unfold JSON.stable_item, JSON.item_roundtrip.
  cbn [LineItem.quantity LineItem.unitPrice LineItem.discountRate].
  now rewrite !number_roundtrip_stable.
Qed.

Lemma roundtrip_idempotent (state : InvoiceFormState.t) :
  JSON.roundtrip (JSON.roundtrip state) = JSON.roundtrip state.
Proof. apply MemFacts.roundtrip_stable, roundtrip_stable_always. Qed.

(** X16. A clone holds only numbers that JSON writes and reads back unchanged,
    so the clone of a clone is the clone itself, with the same totals and the
    same issues. *)
Theorem cloneFormState_idempotent (Date_getTime : string -> number)
    (state : InvoiceFormState.t) :
  let copy := cloneFormState state in
  JSON.stable copy = true
  /\ cloneFormState copy = copy
  /\ totals (cloneFormState copy) = totals copy
  /\ validateInvoice Date_getTime (cloneFormState copy) = validateInvoice Date_getTime copy.
Proof.
  intro copy. subst copy. unfold cloneFormState.
  rewrite roundtrip_idempotent. repeat split. apply roundtrip_stable_always.
Qed.

(** X17. Loading the entry that save has just created puts the clone of the
    working state, as it was at the save, into the working state, selects the
    new entry and leaves the archive as save left it, also when the generated
    id was already in use. *)
Theorem save_then_load (Date_getTime : string -> number) (env : Env.t) (c : Component.t) :
  ArchiveSpec.goes_on Date_getTime env (Component.formState c) "Save anyway?" = true ->
  let saved := handleSaveInvoiceCopy Date_getTime env c in
  let c' := handleLoadSavedInvoice (Env.generateId env) saved in
  Component.formState c' = cloneFormState (Component.formState c)
  /\ Component.selectedSavedInvoiceId c' = Env.generateId env
  /\ Component.savedInvoices c' = Component.savedInvoices saved
  /\ Component.layoutMode c' = preview.
Proof.
  intros Hgo saved c'. subst c' saved.
  rewrite handleSaveInvoiceCopy_unfold, Hgo. unfold handleLoadSavedInvoice.
  cbn [Component.savedInvoices find ArchiveSpec.new_entry StoredInvoice.id].
  unfold str_eq. rewrite bool_decide_eq_true_2 by reflexivity.
  cbn. split; [|repeat split].
  apply roundtrip_idempotent.
Qed.

Lemma archive_stable_roundtrip (l : list StoredInvoice.t) :
  archive_stable l -> archive_roundtrip l = l.
Proof.
  unfold archive_stable, archive_roundtrip.
  induction 1 as [|inv l Hinv _ IH]; [reflexivity |].
  cbn [map]. rewrite IH. f_equal. unfold stored_roundtrip.
  rewrite (MemFacts.roundtrip_stable _ Hinv). destruct inv; reflexivity.
Qed.

(** X18. When every state of the archive holds only numbers that JSON writes
    and reads back unchanged, this is still so after save, update, duplicate,
    delete and load, and the archive that is written to storage is read back
    as it is. *)
Theorem archive_stays_stable (Date_getTime : string -> number) (env : Env.t) (id : string)
    (c : Component.t) :
  archive_stable (Component.savedInvoices c) ->
  archive_stable (Component.savedInvoices (handleSaveInvoiceCopy Date_getTime env c))
  /\ archive_stable (Component.savedInvoices (handleUpdateSavedInvoiceCopy Date_getTime env c))
  /\ archive_stable (Component.savedInvoices (handleDuplicateSavedInvoiceCopy env c))
  /\ archive_stable (Component.savedInvoices (handleDeleteSavedInvoice env id c))
  /\ archive_stable (Component.savedInvoices (handleLoadSavedInvoice id c))
  /\ archive_roundtrip (Component.savedInvoices c) = Component.savedInvoices c.
Proof.
  intro H. unfold archive_stable in *.
  assert (Hnew : JSON.stable (StoredInvoice.formState
                                (ArchiveSpec.new_entry env (Component.formState c))) = true)
    by apply roundtrip_stable_always.
  split; [|split; [|split; [|split; [|split]]]].
  - rewrite handleSaveInvoiceCopy_unfold.
    destruct (ArchiveSpec.goes_on _ _ _ _); [|exact H].
    now apply Forall_cons.
  - rewrite handleUpdateSavedInvoiceCopy_unfold.
    destruct (_ && _); [|exact H].
    cbn [Component.savedInvoices]. apply Forall_fmap.
    eapply Forall_impl; [exact H |]. intros inv Hinv. cbn.
    destruct (str_eq _ _); [apply roundtrip_stable_always | exact Hinv].
  - rewrite handleDuplicateSavedInvoiceCopy_unfold. now apply Forall_cons.
  - rewrite handleDeleteSavedInvoice_unfold.
    destruct (_ && _); [exact H |].
    cbn [Component.savedInvoices]. apply Forall_forall.
    intros inv Hin. apply list_elem_of_filter in Hin as [_ Hin].
    rewrite Forall_forall in H. now apply H.
  - unfold handleLoadSavedInvoice. destruct (find _ _); exact H.
  - now apply archive_stable_roundtrip.
Qed.

(** X19. Export produces nothing when no entry has the id or there is no
    window. Otherwise, with a window and an entry of the id in the archive, it
    does export: the entry is the first one with the id, the one that load
    would load (the given entry itself when ids are pairwise distinct), under
    the name invoice number (or invoice when that is empty), hyphen, id,
    .json. Whatever is exported is such an entry under such a name. *)
Theorem handleExportSavedInvoice_spec (env : Env.t) (id : string) (c : Component.t) :
  ((forall inv, inv ∈ Component.savedInvoices c -> StoredInvoice.id inv <> id) ->
   handleExportSavedInvoice env id c = None)
  /\ (Env.window_defined env = false -> handleExportSavedInvoice env id c = None)
  /\ (Env.window_defined env = true ->
      forall inv,
        inv ∈ Component.savedInvoices c -> StoredInvoice.id inv = id ->
        exists i match_,
          Component.savedInvoices c !! i = Some match_
          /\ StoredInvoice.id match_ = id
          /\ (forall j other, (j < i)%nat -> Component.savedInvoices c !! j = Some other ->
                              StoredInvoice.id other <> id)
          /\ (NoDup (map StoredInvoice.id (Component.savedInvoices c)) -> match_ = inv)
          /\ handleExportSavedInvoice env id c
             = Some (match_,
                     ((if nonEmpty (StoredInvoice.invoiceNumber match_)
                       then StoredInvoice.invoiceNumber match_ else "invoice")
                      ++ "-" ++ id ++ ".json")%string)
          /\ Component.formState (handleLoadSavedInvoice id c)
             = cloneFormState (StoredInvoice.formState match_)
          /\ Component.selectedSavedInvoiceId (handleLoadSavedInvoice id c) = id)
  /\ (forall match_ filename,
         handleExportSavedInvoice env id c = Some (match_, filename) ->
         Env.window_defined env = true
         /\ match_ ∈ Component.savedInvoices c
         /\ StoredInvoice.id match_ = id
         /\ Component.formState (handleLoadSavedInvoice id c)
            = cloneFormState (StoredInvoice.formState match_)
         /\ filename
            = ((if nonEmpty (StoredInvoice.invoiceNumber match_)
                then StoredInvoice.invoiceNumber match_ else "invoice")
               ++ "-" ++ id ++ ".json")%string).
Proof.
  unfold handleExportSavedInvoice, handleLoadSavedInvoice. split; [|split; [|split]].
  - intro Hno. rewrite find_None; [reflexivity |].
    intros x Hx. unfold str_eq. apply bool_decide_eq_false_2. now apply Hno.
  - intro Hw. rewrite Hw. destruct (find _ _); reflexivity.
  - intros Hw inv Hin Hid. rewrite Hw. cbn [negb].
    destruct (find_Some_first (fun x => str_eq (StoredInvoice.id x) id)
                (Component.savedInvoices c) inv Hin) as (i & y & Hf & Hi & Hy & Hfirst).
    { unfold str_eq. now apply bool_decide_eq_true_2. }
    unfold str_eq in Hy. apply bool_decide_eq_true_1 in Hy.
    exists i, y. rewrite Hf.
    split; [exact Hi |]. split; [exact Hy |]. split.
    { intros j other Hj Hother. specialize (Hfirst j other Hj Hother).
      unfold str_eq in Hfirst. now apply bool_decide_eq_false_1 in Hfirst. }
    split.
    { intro Hnd. apply list_elem_of_lookup in Hin as [k Hk].
      assert (Hik : i = k).
      { eapply NoDup_lookup; [exact Hnd | |].
        - rewrite list_lookup_fmap, Hi. reflexivity.
        - rewrite list_lookup_fmap, Hk. cbn. now rewrite Hid, Hy. }
      subst k. congruence. }
    split; [|split; [reflexivity |]].
    + unfold or_else_string. now rewrite Hy.
    + cbn [Component.setHasUserSelectedLayout Component.setLayoutMode
             Component.setSelectedSavedInvoiceId Component.setFormState
             Component.selectedSavedInvoiceId]. exact Hy.
  - intros match_ filename H.
    destruct (find _ _) as [m|] eqn:Ef; [|discriminate H].
    destruct (Env.window_defined env); [|discriminate H].
    cbn [negb] in H. injection H as <- <-.
    assert (Hm : m ∈ Component.savedInvoices c /\ StoredInvoice.id m = id).
    { clear -Ef. induction (Component.savedInvoices c) as [|x l IH]; [discriminate Ef |].
      cbn [find] in Ef. unfold str_eq in Ef. case_bool_decide as E.
      - injection Ef as <-. split; [left | exact E].
      - destruct (IH Ef) as [Hin Hid]. split; [now right | exact Hid]. }
    destruct Hm as [Hin Hid]. split; [reflexivity |]. split; [exact Hin |].
    split; [exact Hid |]. split; [reflexivity |]. unfold or_else_string. now rewrite Hid.
Qed.

(** ** Layout and printing *)

(** X20. Once the user has chosen a layout, or has loaded an entry, the media
    query no longer changes the layout; before that the layout follows the
    media query. In no layout are both panels hidden. *)
Theorem layout_choice_sticks (matches : bool) (c : Component.t) :
  (forall mode,
      applyLayout matches (handleLayoutModeChange mode c) = handleLayoutModeChange mode c
      /\ Component.layoutMode (handleLayoutModeChange mode c) = mode)
  /\ (forall id inv,
         inv ∈ Component.savedInvoices c -> StoredInvoice.id inv = id ->
         applyLayout matches (handleLoadSavedInvoice id c) = handleLoadSavedInvoice id c)
  /\ (Component.hasUserSelectedLayout c = true -> applyLayout matches c = c)
  /\ (Component.hasUserSelectedLayout c = false ->
      Component.layoutMode (applyLayout matches c) = (if matches then split else form)
      /\ Component.hasUserSelectedLayout (applyLayout matches c) = false)
  /\ (formPanelClassName c = "form-panel" \/ previewPanelClassName c = "preview-panel").
Proof.
  split; [|split; [|split; [|split]]].
  - intro mode. split; reflexivity.
  - intros id inv Hin Hid. unfold handleLoadSavedInvoice.
    destruct (find_Some_first (fun x => str_eq (StoredInvoice.id x) id)
                (Component.savedInvoices c) inv Hin) as (i & y & Hf & _).
    { unfold str_eq. now apply bool_decide_eq_true_2. }
    rewrite Hf. reflexivity.
  - intro H. unfold applyLayout. now rewrite H.
  - intro H. unfold applyLayout. rewrite H. split; [reflexivity | exact H].
  - unfold formPanelClassName, previewPanelClassName.
    destruct (Component.layoutMode c); auto.
Qed.

(** X21. Printing is started exactly when there is a window and the state has
    no issue or the user confirms; otherwise nothing changes. When it is
    started the layout is the preview one, the media query cannot change it,
    and restoring after the print gives back the component as it was. *)
Theorem print_then_restore (Date_getTime : string -> number) (env : Env.t)
    (c : Component.t) :
  let issues := validateInvoice Date_getTime (Component.formState c) in
  let printed :=
    Env.window_defined env
    && (Nat.eqb (length issues) 0 || Env.confirm env (print_prompt issues)) in
  (printed = false -> handlePrintInvoice Date_getTime env c = (c, None))
  /\ (printed = true ->
      exists c' job,
        handlePrintInvoice Date_getTime env c = (c', Some job)
        /\ Component.layoutMode c' = preview
        /\ (forall matches, applyLayout matches c' = c')
        /\ restore job c' = c).
Proof.
  intros issues printed. subst printed. unfold handlePrintInvoice. fold issues.
  unfold print_prompt.
  destruct (Env.window_defined env); cbn [andb].
  - destruct (Nat.eqb (length issues) 0); cbn [negb orb].
    + split; [discriminate |]. intros _. eexists _, _. split; [reflexivity |].
      split; [reflexivity |]. split; [reflexivity |]. destruct c; reflexivity.
    + destruct (Env.confirm env _); cbn [negb].
      * split; [discriminate |]. intros _. eexists _, _. split; [reflexivity |].
        split; [reflexivity |]. split; [reflexivity |]. destruct c; reflexivity.
      * split; [reflexivity | discriminate].
  - split; [reflexivity | discriminate].
Qed.

(** ** Draft autosave *)

Lemma edits_snoc (env : Env.t) (fs : list (InvoiceFormState.t -> InvoiceFormState.t))
    (f : InvoiceFormState.t -> InvoiceFormState.t) (b : Builder.t) :
  edits env (fs ++ [f]) b = setFormState_autosave env (edits env fs b) f.
Proof. unfold edits. now rewrite foldl_app. Qed.

Lemma edits_keep_draft (env : Env.t) (fs : list (InvoiceFormState.t -> InvoiceFormState.t))
    (b : Builder.t) :
  Builder.draftPayload (edits env fs b) = Builder.draftPayload b
  /\ Builder.draftStorage (edits env fs b) = Builder.draftStorage b
  /\ Component.formState (Builder.component (edits env fs b))
     = foldl (fun s f => f s) (Component.formState (Builder.component b)) fs.
Proof.
  unfold edits. revert b. induction fs as [|f fs IH]; intro b; [repeat split |].
  cbn [foldl]. destruct (IH (setFormState_autosave env b f)) as (H1 & H2 & H3).
  rewrite H1, H2, H3. repeat split.
Qed.

(** X22. A burst of edits writes no draft; when the timeout then fires, exactly
    one draft is written, the clone of the state after the last edit, the same
    in memory and in storage, and a second firing writes nothing. *)
Theorem autosave_trailing_edge (env env' : Env.t)
    (fs : list (InvoiceFormState.t -> InvoiceFormState.t))
    (f : InvoiceFormState.t -> InvoiceFormState.t) (b : Builder.t) :
  Env.window_defined env = true ->
  let burst := edits env (fs ++ [f]) b in
  let last := foldl (fun s g => g s) (Component.formState (Builder.component b)) (fs ++ [f]) in
  let after := autosave_fires env' burst in
  (Component.formState (Builder.component burst) = last
   /\ Builder.draftPayload burst = Builder.draftPayload b
   /\ Builder.draftStorage burst = Builder.draftStorage b)
  /\ Builder.draftPayload after
     = Some (DraftInvoicePayload.mk (Env.now env') (cloneFormState last))
  /\ Builder.draftStorage after = Builder.draftPayload after
  /\ Builder.component after = Builder.component burst
  /\ (forall env'', autosave_fires env'' after = after).
Proof.
  intros Hw burst last after.
  destruct (edits_keep_draft env (fs ++ [f]) b) as (Hd & Hs & Hform).
  fold burst last in Hd, Hs, Hform.
  assert (Hp : Builder.pendingTimeout burst
               = Some (Component.formState (Builder.component burst))).
  { unfold burst. rewrite edits_snoc. unfold setFormState_autosave.
    cbn [Builder.pendingTimeout Builder.component]. now rewrite Hw. }
  rewrite Hform in Hp.
  split; [repeat split; assumption |].
  subst after. unfold autosave_fires. rewrite Hp.
  cbn [Builder.draftPayload Builder.draftStorage Builder.component].
  split; [reflexivity |]. split.
  - unfold draft_roundtrip. cbn [DraftInvoicePayload.savedAt DraftInvoicePayload.formState].
    unfold cloneFormState. now rewrite roundtrip_idempotent.
  - split; reflexivity.
Qed.

(** X23. Restore does nothing without a draft. With one, the working state
    becomes the clone of the state of the draft, the layout is the form one,
    and the draft, the archive and the selection stay. Restoring the draft
    that the autosave has just written gives the clone of the state that was
    autosaved. *)
Theorem handleRestoreDraft_spec (env env' : Env.t) (b : Builder.t) :
  (Builder.draftPayload b = None -> handleRestoreDraft env b = b)
  /\ (forall payload,
         Builder.draftPayload b = Some payload ->
         let b' := handleRestoreDraft env b in
         Component.formState (Builder.component b')
         = cloneFormState (DraftInvoicePayload.formState payload)
         /\ Component.layoutMode (Builder.component b') = form
         /\ Component.hasUserSelectedLayout (Builder.component b') = true
         /\ Component.savedInvoices (Builder.component b')
            = Component.savedInvoices (Builder.component b)
         /\ Component.selectedSavedInvoiceId (Builder.component b')
            = Component.selectedSavedInvoiceId (Builder.component b)
         /\ Builder.draftPayload b' = Some payload
         /\ Builder.draftStorage b' = Builder.draftStorage b)
  /\ (forall formState,
         Builder.pendingTimeout b = Some formState ->
         Component.formState
           (Builder.component (handleRestoreDraft env (autosave_fires env' b)))
         = cloneFormState formState).
Proof.
  unfold handleRestoreDraft. split; [|split].
  - intro H. now rewrite H.
  - intros payload H. rewrite H. cbn. repeat split. exact H.
  - intros formState H. unfold autosave_fires. rewrite H.
    cbn [Builder.draftPayload Builder.component setFormState_autosave
         Component.setFormState Component.setHasUserSelectedLayout Component.setLayoutMode
         Component.formState DraftInvoicePayload.formState].
    unfold cloneFormState. apply roundtrip_idempotent.
Qed.

(** X24. Clear removes the draft from memory and from storage and leaves the
    component as it is, so that a restore after it does nothing; it does not
    cancel a pending autosave, which writes a draft again when it fires. *)
Theorem handleClearDraft_spec (env env' : Env.t) (b : Builder.t) :
  Env.window_defined env = true ->
  let b' := handleClearDraft env b in
  Builder.draftPayload b' = None
  /\ Builder.draftStorage b' = None
  /\ Builder.component b' = Builder.component b
  /\ Builder.pendingTimeout b' = Builder.pendingTimeout b
  /\ handleRestoreDraft env' b' = b'
  /\ (forall formState,
         Builder.pendingTimeout b = Some formState ->
         Builder.draftPayload (autosave_fires env' b')
         = Some (DraftInvoicePayload.mk (Env.now env') (cloneFormState formState))).
Proof.
  intros Hw b'. subst b'. unfold handleClearDraft. rewrite Hw.
  cbn [Builder.draftPayload Builder.draftStorage Builder.component Builder.pendingTimeout].
  repeat split.
  intros formState H. unfold autosave_fires.
  cbn [Builder.pendingTimeout]. now rewrite H.
Qed.

(** ** The ledger summary *)



Lemma Math_max_0_stable (x : number) :
  isInfinity x = false -> isNaN x = false ->
  JSON.stable_number (Num (Math_max x (ofZ 0))) = true.
Proof.
  destruct x as [s| s | |s m e]; try discriminate; intros _ _;
    destruct s; reflexivity.
Qed.

Lemma or_else_0_stable (x : number) :
  isInfinity x = false -> JSON.stable_number (Num (or_else x (ofZ 0))) = true.
Proof. destruct x as [s| s | |s m e]; try discriminate; intros _; reflexivity. Qed.

Lemma stable_set_numeric (items : list LineItem.t) (id : string) (field : LineItemField)
    (v : FieldType field) :
  match field return FieldType field -> Prop with
  | f_quantity | f_unitPrice | f_discountRate => fun v => JSON.stable_number v = true
  | _ => fun _ => True
  end v ->
  forallb JSON.stable_item items = true ->
  forallb JSON.stable_item
    (map (fun item => if str_eq (LineItem.id item) id then set_field item field v else item)
         items) = true.
Proof.
  intros Hv. induction items as [|item items IH]; intro H; [reflexivity |].
  cbn [map forallb] in *. apply andb_true_iff in H as [Hitem Hrest].
  rewrite (IH Hrest), andb_true_r.
  destruct (str_eq (LineItem.id item) id); [|exact Hitem].
  destruct item. unfold JSON.stable_item in *.
  cbn [LineItem.quantity LineItem.unitPrice LineItem.discountRate] in Hitem.
  apply andb_true_iff in Hitem as [Hqp Hd]. apply andb_true_iff in Hqp as [Hq Hp].
  destruct field; cbn [set_field LineItem.quantity LineItem.unitPrice LineItem.discountRate];
    rewrite ?Hq, ?Hp, ?Hd, ?Hv; reflexivity.
Qed.

(** X26. Numeric entries keep the form state unchanged by a JSON round trip:
    from a state that survives the round trip, a tax-rate, quantity,
    unit-price or discount entry whose text does not convert to an infinity
    gives a state that survives it too, so cloning it changes nothing. *)
Theorem entries_keep_stable (Number : string -> number) (itemId value : string)
    (prev : InvoiceFormState.t) :
  JSON.stable prev = true ->
  isInfinity (Number value) = false ->
  JSON.stable (handleTaxRateChange Number value prev) = true
  /\ JSON.stable (onQuantityChange Number itemId value prev) = true
  /\ JSON.stable (onUnitPriceChange Number itemId value prev) = true
  /\ JSON.stable (onDiscountRateChange Number itemId value prev) = true
  /\ cloneFormState (handleTaxRateChange Number value prev)
     = handleTaxRateChange Number value prev.
Proof.
  intros Hst Hinf.
  assert (Htax : JSON.stable (handleTaxRateChange Number value prev) = true).
  { unfold JSON.stable in *. apply andb_true_iff in Hst as [Ht Hi].
    unfold handleTaxRateChange.
    cbn [InvoiceFormState.with_taxRate InvoiceFormState.taxRate InvoiceFormState.lineItems].
    rewrite Hi, andb_true_r.
    destruct (isNaN (Number value)) eqn:E; [exact Ht | now apply Math_max_0_stable]. }
  assert (Hitems : forall field (v : numeric),
             match field return Type with
             | f_quantity | f_unitPrice | f_discountRate => True
             | _ => False
             end ->
             JSON.stable_number v = true ->
             forall w : FieldType field,
               match field return FieldType field -> Prop with
               | f_quantity | f_unitPrice | f_discountRate => fun w => w = v
               | _ => fun _ => False
               end w ->
               JSON.stable (handleLineItemFieldChange itemId field w prev) = true).
  { intros field v _ Hv w Hw. unfold JSON.stable in *.
    apply andb_true_iff in Hst as [Ht Hi]. unfold handleLineItemFieldChange.
    cbn [InvoiceFormState.with_lineItems InvoiceFormState.taxRate InvoiceFormState.lineItems].
    rewrite Ht. cbn [andb]. apply stable_set_numeric; [|exact Hi].
    destruct field; try contradiction; now subst w. }
  pose proof (or_else_0_stable _ Hinf) as Hv.
  split; [exact Htax |]. split; [|split; [|split]].
  - exact (Hitems f_quantity _ I Hv _ eq_refl).
  - exact (Hitems f_unitPrice _ I Hv _ eq_refl).
  - exact (Hitems f_discountRate _ I Hv _ eq_refl).
  - unfold cloneFormState. now apply MemFacts.roundtrip_stable.
Qed.

(** ** Concrete instances *)

Lemma totals_without_overflow_witness :
  isNaN (taxableAmount (totals (sample_state (ofZ 18) example_items))) = false
  /\ (taxableAmount (totals (sample_state (ofZ 18) example_items)) >=? ofZ 0)%num = true.
Proof.
  apply (totals_without_overflow (sample_state (ofZ 18) example_items)); reflexivity.
Defined.

Lemma subtotal_nonnegative_witness :
  isNaN (subtotal (totals (sample_state (ofZ 18) three_items))) = false
  /\ (subtotal (totals (sample_state (ofZ 18) three_items)) >=? ofZ 0)%num = true.
Proof.
  apply (subtotal_nonnegative (sample_state (ofZ 18) three_items)).
  repeat (apply Forall_cons; split; [split; reflexivity |]). apply Forall_nil_2.
Defined.


Lemma validateInvoice_issues_witness :
  validateInvoice Date_table (sample_state (ofZ 18) example_items) = [].
Proof.
  apply (proj2 (proj2 (proj2 (validateInvoice_issues Date_table
                                (sample_state (ofZ 18) example_items))))).
  intros r Hin. unfold ValidatorSpec.rules in Hin.
  repeat (apply elem_of_cons in Hin as [-> | Hin]; [vm_compute; reflexivity |]).
  inversion Hin.
Defined.

Lemma handleLineItemFieldChange_frame_witness :
  handleLineItemFieldChange "li-9" f_quantity (Num (ofZ 5)) state_one_item = state_one_item
  /\ map LineItem.id
       (InvoiceFormState.lineItems
          (handleLineItemFieldChange "li-1" f_quantity (Num (ofZ 5)) state_one_item))
     = ["li-1"].
Proof.
  split.
  - apply (handleLineItemFieldChange_frame "li-9" f_quantity (Num (ofZ 5)) state_one_item).
    intros item Hin. apply list_elem_of_singleton in Hin as ->. discriminate.
  - destruct (handleLineItemFieldChange_frame "li-1" f_quantity (Num (ofZ 5)) state_one_item)
      as (_ & _ & Hids & _).
    rewrite Hids; [reflexivity | discriminate].
Defined.

Lemma handleLineItemFieldChange_compose_witness :
  handleLineItemFieldChange "li-1" f_quantity (Num (ofZ 7))
    (handleLineItemFieldChange "li-1" f_quantity (Num (ofZ 5)) state_one_item)
  = handleLineItemFieldChange "li-1" f_quantity (Num (ofZ 7)) state_one_item
  /\ handleLineItemFieldChange "li-1" f_quantity (Num (ofZ 5))
       (handleLineItemFieldChange "li-1" f_description "Audit, phase 2" state_one_item)
     = handleLineItemFieldChange "li-1" f_description "Audit, phase 2"
         (handleLineItemFieldChange "li-1" f_quantity (Num (ofZ 5)) state_one_item).
Proof.
  split.
  - apply (handleLineItemFieldChange_compose state_one_item "li-1" f_quantity
             (Num (ofZ 5)) (Num (ofZ 7))). discriminate.
  - apply (proj2 (handleLineItemFieldChange_compose state_one_item "li-1" f_quantity
                    (Num (ofZ 5)) (Num (ofZ 5)) ltac:(discriminate))
             "li-1" f_description "Audit, phase 2"); discriminate.
Defined.

Lemma falsy_entries_are_reported_witness :
  line_item_issue
    ∈ validateInvoice Date_table (onQuantityChange Number_table "li-1" "abc" state_one_item)
  /\ line_item_issue
       ∈ validateInvoice Date_table (onUnitPriceChange Number_table "li-1" "-5" state_one_item).
Proof.
  split.
  - apply (proj1 (falsy_entries_are_reported Number_table Date_table "li-1" "abc"
                    state_one_item (item "li-1" "Audit" 3 100 0)
                    (list_elem_of_here _ _) eq_refl)).
    reflexivity.
  - destruct (proj2 (falsy_entries_are_reported Number_table Date_table "li-1" "-5"
                       state_one_item (item "li-1" "Audit" 3 100 0)
                       (list_elem_of_here _ _) eq_refl) eq_refl) as (_ & H & _).
    exact H.
Defined.

Lemma handleAddLineItem_spec_witness :
  InvoiceFormState.lineItems (handleAddLineItem env_yes state_one_item) !! 0%nat
  = Some (item "li-1" "Audit" 3 100 0)
  /\ line_item_issue ∈ validateInvoice Date_table (handleAddLineItem env_yes state_one_item).
Proof.
  destruct (handleAddLineItem_spec Date_table env_yes state_one_item)
    as (_ & _ & Hkeep & _ & Hissue & _).
  split; [apply Hkeep; reflexivity | exact Hissue].
Defined.

Lemma add_then_remove_witness :
  handleRemoveLineItem "q7w8e9r0" (handleAddLineItem env_yes state_one_item) = state_one_item
  /\ handleRemoveLineItem "q7w8e9r0" (handleAddLineItem env_yes (sample_state (ofZ 18) []))
     = handleAddLineItem env_yes (sample_state (ofZ 18) []).
Proof.
  split.
  - apply (add_then_remove env_yes state_one_item).
    + intros x Hin. apply list_elem_of_singleton in Hin as ->. discriminate.
    + discriminate.
  - apply (add_then_remove env_yes (sample_state (ofZ 18) [])).
    + intros x Hin. inversion Hin.
    + reflexivity.
Defined.

Lemma handleServiceChange_spec_witness :
  exists item',
    InvoiceFormState.lineItems
      (handleServiceChange serviceLookup_sample "li-1" "svc-seo" state_one_item) !! 0%nat
    = Some item'
    /\ LineItem.quantity item' = Num (ofZ 3)
    /\ LineItem.description item'
       = "Monthly SEO retainer: audits, content briefs and reporting"
    /\ LineItem.unitPrice item' = Num (ofZ 45000).
Proof.
  destruct (handleServiceChange_spec serviceLookup_sample "li-1" "svc-seo" state_one_item)
    as (_ & _ & H).
  destruct (H 0%nat (item "li-1" "Audit" 3 100 0) eq_refl)
    as (item' & Hi & _ & Hq & _ & _ & _ & Hsame).
  destruct (Hsame eq_refl) as (_ & _ & Hknown).
  destruct (Hknown sample_service eq_refl) as [Hd Hp].
  exists item'. split; [exact Hi |]. split; [exact Hq |]. split; [exact Hd | exact Hp].
Defined.



Lemma handleDeleteSavedInvoice_spec_witness :
  handleDeleteSavedInvoice env_no "a1b2c3d4" component_with_issues = component_with_issues
  /\ Component.savedInvoices (handleDeleteSavedInvoice env_yes "a1b2c3d4" component_with_issues)
     = [archived_2]
  /\ Component.selectedSavedInvoiceId
       (handleDeleteSavedInvoice env_yes "a1b2c3d4" component_with_issues) = "".
Proof.
  split.
  - apply (proj1 (handleDeleteSavedInvoice_spec env_no "a1b2c3d4" component_with_issues)).
    reflexivity.
  - destruct (proj2 (handleDeleteSavedInvoice_spec env_yes "a1b2c3d4" component_with_issues)
                eq_refl) as (Hsaved & _ & _ & _ & Hsel & _).
    split; [rewrite Hsaved | rewrite Hsel]; reflexivity.
Defined.

Lemma delete_removes_exactly_one_witness :
  Component.savedInvoices (handleDeleteSavedInvoice env_yes "a1b2c3d4" component_with_issues)
  = [archived_2].
Proof.
  apply (delete_removes_exactly_one env_yes component_with_issues 0 archived_1).
  - apply (bool_decide_unpack _). vm_compute. exact I.
  - reflexivity.
  - reflexivity.
Defined.

Lemma save_then_delete_witness :
  Component.savedInvoices
    (handleDeleteSavedInvoice env_yes "q7w8e9r0"
       (handleSaveInvoiceCopy Date_table env_yes component_with_issues))
  = [archived_1; archived_2].
Proof.
  apply (save_then_delete Date_table env_yes env_yes component_with_issues).
  - reflexivity.
  - intros inv Hin. apply list_elem_of_In in Hin. cbn in Hin.
    destruct Hin as [<- | [<- | []]]; discriminate.
  - reflexivity.
Defined.

Lemma save_then_load_witness :
  Component.formState
    (handleLoadSavedInvoice "q7w8e9r0"
       (handleSaveInvoiceCopy Date_table env_yes component_clean))
  = cloneFormState (sample_state (ofZ 18) example_items).
Proof.
  apply (save_then_load Date_table env_yes component_clean). reflexivity.
Defined.

Lemma archive_stays_stable_witness :
  archive_stable
    (Component.savedInvoices (handleSaveInvoiceCopy Date_table env_yes component_clean))
  /\ archive_roundtrip [archived_1; archived_2] = [archived_1; archived_2].
Proof.
  destruct (archive_stays_stable Date_table env_yes "a1b2c3d4" component_clean)
    as (Hsave & _ & _ & _ & _ & Hround).
  - repeat (apply Forall_cons; split; [reflexivity |]). apply Forall_nil_2.
  - split; [exact Hsave | exact Hround].
Defined.

Lemma handleExportSavedInvoice_spec_witness :
  handleExportSavedInvoice env_yes "zzzzzzzz" component_with_issues = None
  /\ handleExportSavedInvoice env_yes "a1b2c3d4" component_with_issues
     = Some (archived_1, "ADS-2024-0105-zz01yy02-a1b2c3d4.json")
  /\ Component.formState (handleLoadSavedInvoice "a1b2c3d4" component_with_issues)
     = cloneFormState (StoredInvoice.formState archived_1).
Proof.
  split.
  - apply (proj1 (handleExportSavedInvoice_spec env_yes "zzzzzzzz" component_with_issues)).
    intros inv Hin. apply list_elem_of_In in Hin. cbn in Hin.
    destruct Hin as [<- | [<- | []]]; discriminate.
  - destruct (proj1 (proj2 (proj2 (handleExportSavedInvoice_spec env_yes "a1b2c3d4"
                                     component_with_issues)))
                eq_refl archived_1)
      as (i & match_ & _ & _ & _ & Hsame & Hexport & Hload & _).
    + left.
    + reflexivity.
    + rewrite Hsame in Hexport, Hload by (apply (bool_decide_unpack _); vm_compute; exact I).
      split; [exact Hexport | exact Hload].
Defined.

Lemma layout_choice_sticks_witness :
  Component.layoutMode (applyLayout true component_clean) = split
  /\ applyLayout true (handleLoadSavedInvoice "e5f6g7h8" component_clean)
     = handleLoadSavedInvoice "e5f6g7h8" component_clean.
Proof.
  destruct (layout_choice_sticks true component_clean) as (_ & Hload & _ & Hfree & _).
  split.
  - apply Hfree. reflexivity.
  - apply (Hload "e5f6g7h8" archived_2); [right; left | reflexivity].
Defined.

Lemma print_then_restore_witness :
  handlePrintInvoice Date_table env_no component_with_issues = (component_with_issues, None)
  /\ exists c' job,
      handlePrintInvoice Date_table env_yes component_with_issues = (c', Some job)
      /\ Component.layoutMode c' = preview
      /\ restore job c' = component_with_issues.
Proof.
  split.
  - apply (proj1 (print_then_restore Date_table env_no component_with_issues)). reflexivity.
  - destruct (proj2 (print_then_restore Date_table env_yes component_with_issues) eq_refl)
      as (c' & job & Hp & Hl & _ & Hr).
    exists c', job. split; [exact Hp |]. split; [exact Hl | exact Hr].
Defined.

Lemma autosave_trailing_edge_witness :
  Builder.draftPayload (edits env_yes burst_sample builder_sample) = None
  /\ Builder.draftPayload (autosave_fires env_yes (edits env_yes burst_sample builder_sample))
     = Some (DraftInvoicePayload.mk "2024-01-12T09:30:00.000Z"
               (cloneFormState
                  (handleAddLineItem env_yes
                     (InvoiceFormState.with_taxRate (sample_state (ofZ 18) example_items)
                        (Num (ofZ 12)))))).
Proof.
  destruct (autosave_trailing_edge env_yes env_yes
              [fun prev => InvoiceFormState.with_taxRate prev (Num (ofZ 12))]
              (handleAddLineItem env_yes) builder_sample eq_refl)
    as ((_ & Hd & _) & Hafter & _).
  split; [exact Hd | exact Hafter].
Defined.

Lemma handleRestoreDraft_spec_witness :
  handleRestoreDraft env_yes builder_sample = builder_sample
  /\ Component.formState
       (Builder.component
          (handleRestoreDraft env_yes
             (autosave_fires env_yes (edits env_yes burst_sample builder_sample))))
     = cloneFormState
         (Component.formState
            (Builder.component (edits env_yes burst_sample builder_sample))).
Proof.
  split.
  - apply (proj1 (handleRestoreDraft_spec env_yes env_yes builder_sample)). reflexivity.
  - apply (proj2 (proj2 (handleRestoreDraft_spec env_yes env_yes
                           (edits env_yes burst_sample builder_sample)))).
    reflexivity.
Defined.

Lemma handleClearDraft_spec_witness :
  Builder.draftPayload
    (handleClearDraft env_yes
       (autosave_fires env_yes (edits env_yes burst_sample builder_sample))) = None
  /\ Builder.draftPayload
       (autosave_fires env_yes
          (handleClearDraft env_yes (edits env_yes burst_sample builder_sample)))
     = Some (DraftInvoicePayload.mk "2024-01-12T09:30:00.000Z"
               (cloneFormState
                  (Component.formState
                     (Builder.component (edits env_yes burst_sample builder_sample))))).
Proof.
  split.
  - apply (handleClearDraft_spec env_yes env_yes
             (autosave_fires env_yes (edits env_yes burst_sample builder_sample)) eq_refl).
  - destruct (handleClearDraft_spec env_yes env_yes
                (edits env_yes burst_sample builder_sample) eq_refl)
      as (_ & _ & _ & _ & _ & Hfire).
    apply Hfire. reflexivity.
Defined.

Lemma entries_keep_stable_witness :
  JSON.stable (handleTaxRateChange Number_table "7" state_one_item) = true
  /\ JSON.stable (onQuantityChange Number_table "li-1" "abc" state_one_item) = true.
Proof.
  destruct (entries_keep_stable Number_table "li-1" "7" state_one_item eq_refl eq_refl)
    as (H & _).
  destruct (entries_keep_stable Number_table "li-1" "abc" state_one_item eq_refl eq_refl)
    as (_ & H' & _).
  split; [exact H | exact H'].
Defined.
